(** * scheduler-mcp: the task model and the tool-call executor

    A shallow embedding of [mcp_scheduler/task.py] and
    [mcp_scheduler/executors/tool_call.py], with the properties their
    specification states about them. *)

From Stdlib Require Import NArith ZArith List String Ascii Bool Lia.
From stdpp Require Import base option list.
Import ListNotations.

#[local] Set Warnings "-register-all".
Local Open Scope N_scope.

(** ** Python text

    A Python [str] is a sequence of Unicode code points; a code point is a
    number.  Source literals are written as Rocq strings and read through
    [py]. *)

Module PyStr.

Definition pystr : Type := list N.

Definition py (s : string) : pystr :=
  List.map N_of_ascii (list_ascii_of_string s).

Fixpoint eqb (a b : pystr) : bool :=
  match a, b with
  | [], [] => true
  | x :: a', y :: b' => (x =? y) && eqb a' b'
  | _, _ => false
  end.

(** [text.startswith(sub)] *)
Fixpoint starts_with (sub text : pystr) : bool :=
  match sub, text with
  | [], _ => true
  | x :: sub', y :: text' => (x =? y) && starts_with sub' text'
  | _ :: _, [] => false
  end.

(** [sub in text] *)
Fixpoint contains (sub text : pystr) : bool :=
  starts_with sub text ||
  match text with
  | [] => false
  | _ :: text' => contains sub text'
  end.

End PyStr.
Export PyStr.

(** ** [sanitize_ascii] *)

(** The character class [[^\x00-\x7F]]. *)
Definition non_ascii (c : N) : bool := 127 <? c.

(** [re.sub] of [[^\x00-\x7F]+] by the empty text: [text] is scanned from the left;
    a character outside the class is copied, and at a character inside it the
    longest run of such characters is matched and replaced by nothing. *)
Fixpoint re_sub_non_ascii (text : pystr) : pystr :=
  match text with
  | [] => []
  | c :: rest =>
      if non_ascii c then
        (fix skip_run (r : pystr) : pystr :=
           match r with
           | [] => []
           | d :: r' => if non_ascii d then skip_run r' else d :: re_sub_non_ascii r'
           end) rest
      else c :: re_sub_non_ascii rest
  end.

Definition sanitize_ascii (text : pystr) : pystr :=
  match text with
  | [] => text                       (* if not text: return text *)
  | _ => re_sub_non_ascii text
  end.

(** Only ASCII characters: every code point is at most U+007F. *)
Definition is_ascii (s : pystr) : bool := forallb (fun c => c <=? 127) s.

(** Printable ASCII in the sense of Python's [string.printable]: the graphic
    characters and the space (U+0020..U+007E) and the whitespace controls
    tab, newline, vertical tab, form feed and carriage return. *)
Definition printable_char (c : N) : bool :=
  ((32 <=? c) && (c <=? 126)) || ((9 <=? c) && (c <=? 13)).

Definition is_printable (s : pystr) : bool := forallb printable_char s.


(** ** The enumerations

    Both derive from [str]: a member compares equal to its tag. *)

Inductive TaskStatus : Type := PENDING | RUNNING | COMPLETED | FAILED | DISABLED.

Inductive TaskType : Type := SHELL_COMMAND | API_CALL | AI | REMINDER | TOOL_CALL.

Definition TaskStatus_value (s : TaskStatus) : pystr :=
  match s with
  | PENDING => py "pending"
  | RUNNING => py "running"
  | COMPLETED => py "completed"
  | FAILED => py "failed"
  | DISABLED => py "disabled"
  end.

Definition TaskType_value (t : TaskType) : pystr :=
  match t with
  | SHELL_COMMAND => py "shell_command"
  | API_CALL => py "api_call"
  | AI => py "ai"
  | REMINDER => py "reminder"
  | TOOL_CALL => py "tool_call"
  end.

Definition TaskStatus_members : list TaskStatus :=
  [PENDING; RUNNING; COMPLETED; FAILED; DISABLED].

Definition TaskType_members : list TaskType :=
  [SHELL_COMMAND; API_CALL; AI; REMINDER; TOOL_CALL].

(** [TaskStatus(value)] and [TaskType(value)]: the member with that tag. *)
Definition TaskStatus_of_value (v : pystr) : option TaskStatus :=
  List.find (fun m => PyStr.eqb (TaskStatus_value m) v) TaskStatus_members.

Definition TaskType_of_value (v : pystr) : option TaskType :=
  List.find (fun m => PyStr.eqb (TaskType_value m) v) TaskType_members.

Definition TaskType_eqb (a b : TaskType) : bool :=
  match a, b with
  | SHELL_COMMAND, SHELL_COMMAND | API_CALL, API_CALL | AI, AI
  | REMINDER, REMINDER | TOOL_CALL, TOOL_CALL => true
  | _, _ => false
  end.

(** ** Timestamps

    The model creates its timestamps with [datetime.utcnow()], which are
    naive (no time zone); [datetime] is the naive datetime. *)

Module Datetime.

Record datetime : Type := mk {
  year : N; month : N; day : N;
  hour : N; minute : N; second : N; microsecond : N
}.

Definition is_leap (y : N) : bool :=
  ((y mod 4 =? 0) && negb (y mod 100 =? 0)) || (y mod 400 =? 0).

Definition days_in_month (y m : N) : N :=
  if m =? 2 then (if is_leap y then 29 else 28)
  else if (m =? 4) || (m =? 6) || (m =? 9) || (m =? 11) then 30
  else 31.

(** What the constructor [datetime(...)] accepts; every datetime object
    satisfies it. *)
Definition valid (d : datetime) : bool :=
  (1 <=? year d) && (year d <=? 9999) &&
  (1 <=? month d) && (month d <=? 12) &&
  (1 <=? day d) && (day d <=? days_in_month (year d) (month d)) &&
  (hour d <=? 23) && (minute d <=? 59) && (second d <=? 59) &&
  (microsecond d <=? 999999).

Definition digit_char (n : N) : N := 48 + n mod 10.

(** The [k] low decimal digits of [n], least significant first. *)
Fixpoint digits_rev (k : nat) (n : N) : pystr :=
  match k with
  | O => []
  | S k' => digit_char n :: digits_rev k' (n / 10)
  end.

(** ["%0kd" % n] for [n] below [10^k]. *)
Definition zfill (k : nat) (n : N) : pystr := List.rev (digits_rev k n).

(** [d.isoformat()]: [YYYY-MM-DDTHH:MM:SS], and [.ffffff] when the
    microsecond is not zero. *)
Definition isoformat (d : datetime) : pystr :=
  zfill 4 (year d) ++ 45 :: zfill 2 (month d) ++ 45 :: zfill 2 (day d)
  ++ 84 :: zfill 2 (hour d) ++ 58 :: zfill 2 (minute d)
  ++ 58 :: zfill 2 (second d)
  ++ (if microsecond d =? 0 then [] else 46 :: zfill 6 (microsecond d)).

Definition is_digit (c : N) : bool := (48 <=? c) && (c <=? 57).

(** The extended ISO 8601 form of a local date and time,
    [YYYY-MM-DDThh:mm:ss], with an optional fraction of six digits. *)
Definition is_iso8601 (s : pystr) : bool :=
  match s with
  | y1 :: y2 :: y3 :: y4 :: c1 :: m1 :: m2 :: c2 :: d1 :: d2 :: c3
    :: h1 :: h2 :: c4 :: n1 :: n2 :: c5 :: s1 :: s2 :: fraction =>
      forallb is_digit [y1; y2; y3; y4; m1; m2; d1; d2; h1; h2; n1; n2; s1; s2]
      && (c1 =? 45) && (c2 =? 45) && (c3 =? 84) && (c4 =? 58) && (c5 =? 58)
      && match fraction with
         | [] => true
         | dot :: us =>
             (dot =? 46) && (List.length us =? 6)%nat && forallb is_digit us
         end
  | _ => false
  end.

(** [int(ds)] for ASCII digits. *)
Definition int_of_digits (ds : pystr) : N :=
  List.fold_left (fun acc c => 10 * acc + (c - 48)) ds 0.

(** The longest prefix of at most [k] digits, and what follows it. *)
Fixpoint read_digits (k : nat) (s : pystr) : pystr * pystr :=
  match k, s with
  | S k', c :: s' =>
      if is_digit c then
        let '(ds, rest) := read_digits k' s' in (c :: ds, rest)
      else ([], s)
  | _, _ => ([], s)
  end.

(** How [\d{lo,hi}] matches at the start of [s]: greedily.  Where it is
    used below, the next item of the pattern is no digit, so a shorter
    match of the digits never lets the whole pattern match. *)
Definition digits (lo hi : nat) (s : pystr) : option (pystr * pystr) :=
  let '(ds, rest) := read_digits hi s in
  if (lo <=? List.length ds)%nat then Some (ds, rest) else None.

(** One character out of [cs]. *)
Definition one_of (cs : list N) (s : pystr) : option pystr :=
  match s with
  | c :: rest => if existsb (N.eqb c) cs then Some rest else None
  | [] => None
  end.

(** [s.ljust(6, '0')] *)
Definition ljust6 (ds : pystr) : pystr :=
  ds ++ List.repeat 48 (6 - List.length ds)%nat.

Inductive parsed : Type :=
| Parsed (d : datetime)
| NoMatch               (* pydantic raises DateTimeError *)
| OtherForm.            (* pydantic reads a number or a time zone *)

(** [datetime(year, month, ...)], which raises on a date that does not
    exist. *)
Definition build (y mo d h mi sec us : N) : parsed :=
  let dt := mk y mo d h mi sec us in
  if valid dt then Parsed dt else NoMatch.

(** The pattern's end, [(tzinfo)?$]: the text stops here, or with one
    newline after it.  [Z], [+] and [-] start a time zone. *)
Definition at_end (s : pystr) (result : parsed) : parsed :=
  match s with
  | [] | [10] => result
  | c :: _ => if existsb (N.eqb c) [90; 43; 45] then OtherForm else NoMatch
  end.

(** The pattern after the minute:
    [(?::(\d{1,2})(?:\.(\d{1,6})\d{0,6})?)?(tzinfo)?$]. *)
Definition seconds_tail (finish : N -> N -> parsed) (s : pystr) : parsed :=
  match s with
  | 58 :: s1 =>
      match digits 1 2 s1 with
      | Some (sec, 46 :: s3) =>
          match digits 1 6 s3 with
          | Some (us, s4) =>
              match digits 0 6 s4 with
              | Some (_, s5) =>
                  at_end s5 (finish (int_of_digits sec)
                                    (int_of_digits (ljust6 us)))
              | None => NoMatch
              end
          | None => NoMatch
          end
      | Some (sec, s2) => at_end s2 (finish (int_of_digits sec) 0)
      | None => NoMatch
      end
  | _ => at_end s (finish 0 0)
  end.

Notation "'let?' p ':=' e 'in' k" :=
  (match e with
   | Some p => k
   | None => NoMatch
   end) (at level 10, p pattern, e at level 200, k at level 200).

(** pydantic's [parse_datetime] on text.  It first tries [float(value)]
    (a unix timestamp), then matches
    [(\d{4})-(\d{1,2})-(\d{1,2})[T ](\d{1,2}):(\d{1,2})] and the tail
    above from the start of the text, and builds [datetime(...)] from the
    groups.  No text with a colon is a number; [\d] and [int] also take
    digits past ASCII, which are left to [OtherForm] with the numbers and
    the time zones. *)
Definition parse_datetime (s : pystr) : parsed :=
  if negb (is_ascii s) || negb (existsb (N.eqb 58) s) then OtherForm
  else
    let? (y, s) := digits 4 4 s in
    let? s := one_of [45] s in
    let? (mo, s) := digits 1 2 s in
    let? s := one_of [45] s in
    let? (d, s) := digits 1 2 s in
    let? s := one_of [84; 32] s in
    let? (h, s) := digits 1 2 s in
    let? s := one_of [58] s in
    let? (mi, s) := digits 1 2 s in
    seconds_tail
      (build (int_of_digits y) (int_of_digits mo) (int_of_digits d)
             (int_of_digits h) (int_of_digits mi)) s.

End Datetime.
Export Datetime(datetime).

(** ** Python values

    The values that keyword arguments, dictionaries and tool results hold.
    [PObject cls] is an instance of a plain class named [cls] (one that
    derives from [object] alone and defines no special method). *)

Inductive pyval : Type :=
| PNone
| PBool (b : bool)
| PInt (z : Z)
| PStr (s : pystr)
| PList (l : list pyval)
| PDict (items : list (pystr * pyval))
| PDatetime (d : datetime)
| PTaskType (t : TaskType)
| PTaskStatus (s : TaskStatus)
| PObject (cls : pystr).

(** A dictionary with text keys, in insertion order. *)
Definition pydict : Type := list (pystr * pyval).

Fixpoint dict_get {V : Type} (k : pystr) (d : list (pystr * V)) : option V :=
  match d with
  | [] => None
  | (k', v) :: d' => if PyStr.eqb k' k then Some v else dict_get k d'
  end.

(** [d[k] = v]: an existing key keeps its place. *)
Fixpoint dict_set {V : Type} (k : pystr) (v : V) (d : list (pystr * V))
  : list (pystr * V) :=
  match d with
  | [] => [(k, v)]
  | (k', v') :: d' =>
      if PyStr.eqb k' k then (k, v) :: d' else (k', v') :: dict_set k v d'
  end.

Definition dict_keys {V : Type} (d : list (pystr * V)) : list pystr :=
  List.map fst d.

(** A raised exception.  Its class derives from [Exception] or not (all
    do but [KeyboardInterrupt], [SystemExit], [GeneratorExit] and classes
    built on [BaseException] itself); and [str(exc)] returns its message, or
    the [__str__] of its class raises a fault of its own. *)
Inductive raised : Type :=
| Fault (from_Exception : bool) (msg : pystr)
| Unprintable (from_Exception : bool) (fault : raised).

(** [isinstance(exc, Exception)] *)
Definition derives_Exception (exc : raised) : bool :=
  match exc with
  | Fault b _ | Unprintable b _ => b
  end.

(** What a call does: it returns, or it raises. *)
Inductive pycall (A : Type) : Type :=
| Return (a : A)
| Raise (e : raised).
Arguments Return {A} a.
Arguments Raise {A} e.

(** [str(exc)] *)
Definition str_of (exc : raised) : pycall pystr :=
  match exc with
  | Fault _ msg => Return msg
  | Unprintable _ fault => Raise fault
  end.

Definition TypeError (msg : pystr) : raised := Fault true msg.

(** ** [str(int)] and [json.dumps] *)

Fixpoint uint_text (u : Decimal.uint) : pystr :=
  match u with
  | Decimal.Nil => []
  | Decimal.D0 u' => 48 :: uint_text u'
  | Decimal.D1 u' => 49 :: uint_text u'
  | Decimal.D2 u' => 50 :: uint_text u'
  | Decimal.D3 u' => 51 :: uint_text u'
  | Decimal.D4 u' => 52 :: uint_text u'
  | Decimal.D5 u' => 53 :: uint_text u'
  | Decimal.D6 u' => 54 :: uint_text u'
  | Decimal.D7 u' => 55 :: uint_text u'
  | Decimal.D8 u' => 56 :: uint_text u'
  | Decimal.D9 u' => 57 :: uint_text u'
  end.

Definition int_text (z : Z) : pystr :=
  match z with
  | Z0 => py "0"
  | Zpos p => uint_text (Pos.to_uint p)
  | Zneg p => 45 :: uint_text (Pos.to_uint p)
  end.

Module Json.

Definition hex_digit (n : N) : N := if n <? 10 then 48 + n else 87 + n.

(** ['\\u{0:04x}'.format(n)] for [n] below [0x10000]. *)
Definition u_escape (n : N) : pystr :=
  [92; 117; hex_digit (n / 4096 mod 16); hex_digit (n / 256 mod 16);
   hex_digit (n / 16 mod 16); hex_digit (n mod 16)].

(** One character under [ensure_ascii]: the quote, the backslash and all
    but U+0020..U+007E are escaped, code points past U+FFFF as a
    surrogate pair. *)
Definition escape_char (c : N) : pystr :=
  if c =? 34 then [92; 34]
  else if c =? 92 then [92; 92]
  else if c =? 10 then [92; 110]
  else if c =? 13 then [92; 114]
  else if c =? 9 then [92; 116]
  else if c =? 8 then [92; 98]
  else if c =? 12 then [92; 102]
  else if (32 <=? c) && (c <=? 126) then [c]
  else if c <? 65536 then u_escape c
  else
    let n := c - 65536 in
    u_escape (N.lor 55296 (N.land (N.shiftr n 10) 1023))
    ++ u_escape (N.lor 56320 (N.land n 1023)).

Definition encode_str (s : pystr) : pystr :=
  [34] ++ List.concat (List.map escape_char s) ++ [34].

Fixpoint join (sep : pystr) (parts : list pystr) : pystr :=
  match parts with
  | [] => []
  | [p] => p
  | p :: ps => p ++ sep ++ join sep ps
  end.

(** The results of a list of steps, up to the first one that raises. *)
Fixpoint all_returned {A : Type} (rs : list (pycall A)) : pycall (list A) :=
  match rs with
  | [] => Return []
  | Raise e :: _ => Raise e
  | Return a :: rs' =>
      match all_returned rs' with
      | Return l => Return (a :: l)
      | Raise e => Raise e
      end
  end.

Definition not_serializable (cls : pystr) : raised :=
  TypeError (py "Object of type " ++ cls ++ py " is not JSON serializable").

(** [json.dumps(v)] with the default arguments. *)
Fixpoint dumps (v : pyval) : pycall pystr :=
  match v with
  | PNone => Return (py "null")
  | PBool true => Return (py "true")
  | PBool false => Return (py "false")
  | PInt z => Return (int_text z)
  | PStr s => Return (encode_str s)
  | PTaskType t => Return (encode_str (TaskType_value t))
  | PTaskStatus s => Return (encode_str (TaskStatus_value s))
  | PList l =>
      match all_returned (List.map dumps l) with
      | Return parts => Return (py "[" ++ join (py ", ") parts ++ py "]")
      | Raise e => Raise e
      end
  | PDict items =>
      match all_returned
              (List.map (fun kv =>
                           match dumps (snd kv) with
                           | Return t => Return (encode_str (fst kv) ++ py ": " ++ t)
                           | Raise e => Raise e
                           end) items) with
      | Return parts => Return (py "{" ++ join (py ", ") parts ++ py "}")
      | Raise e => Raise e
      end
  | PDatetime _ => Raise (not_serializable (py "datetime"))
  | PObject cls => Raise (not_serializable cls)
  end.

End Json.

(** ** The environment

    [uuid.uuid4()] and [datetime.utcnow()] read the outside world.  A
    [World] holds what they will return, call after call, and how many
    calls were made. *)

Record World : Type := {
  uuid_hex : nat -> pystr;        (* [uuid4().hex] of the n-th call *)
  clock : nat -> datetime;        (* the n-th reading of [utcnow()] *)
  uuid_calls : nat;
  clock_calls : nat
}.

Definition uuid4_hex (w : World) : pystr * World :=
  (uuid_hex w (uuid_calls w),
   {| uuid_hex := uuid_hex w; clock := clock w;
      uuid_calls := S (uuid_calls w); clock_calls := clock_calls w |}).

Definition utcnow (w : World) : datetime * World :=
  (clock w (clock_calls w),
   {| uuid_hex := uuid_hex w; clock := clock w;
      uuid_calls := uuid_calls w; clock_calls := S (clock_calls w) |}).

(** ** Validation of a model's fields (pydantic v1)

    [Model(name=value, ...)] walks the fields in the order the class declares
    them.  A field whose keyword is absent takes its default, and its
    validators do not run (no validator here is declared [always=True]); a
    required field that is absent is an error.  A supplied value goes
    through the [pre] validators, the check for [None], the validator of the
    declared type and the other validators of the class, which also see
    [values], the fields accepted so far.  The errors of all fields are
    collected and raised together as one [ValidationError]. *)

Inductive failure : Type :=
| MissingError              (* field required *)
| NoneIsNotAllowedError
| StrError
| BoolError
| DictError
| DateTimeError
| InvalidType               (* a TypeError from a type validator *)
| EnumMemberError
| ValueError (msg : pystr). (* raised by a validator of the class *)

(** What a field makes of a supplied value.  [Uncovered]: pydantic coerces
    the value by a route this development does not follow (a unix
    timestamp, a time zone, an iterable of pairs for a dictionary, text
    with characters past ASCII where a boolean is expected). *)
Inductive outcome (A : Type) : Type :=
| Accepted (a : A)
| Rejected (f : failure)
| Uncovered.
Arguments Accepted {A} a.
Arguments Rejected {A} f.
Arguments Uncovered {A}.

Definition bind {A B : Type} (r : outcome A) (k : A -> outcome B) : outcome B :=
  match r with
  | Accepted a => k a
  | Rejected f => Rejected f
  | Uncovered => Uncovered
  end.

Definition str_validator (v : pyval) : outcome pystr :=
  match v with
  | PStr s => Accepted s
  | PTaskType t => Accepted (TaskType_value t)
  | PTaskStatus s => Accepted (TaskStatus_value s)
  | PInt z => Accepted (int_text z)
  | PBool true => Accepted (py "True")
  | PBool false => Accepted (py "False")
  | _ => Rejected StrError
  end.

Definition ascii_lower (s : pystr) : pystr :=
  List.map (fun c => if (65 <=? c) && (c <=? 90) then c + 32 else c) s.

Definition BOOL_TRUE : list pystr :=
  List.map py ["1"; "on"; "t"; "true"; "y"; "yes"]%string.
Definition BOOL_FALSE : list pystr :=
  List.map py ["0"; "off"; "f"; "false"; "n"; "no"]%string.

Definition bool_of_text (s : pystr) : outcome bool :=
  if negb (is_ascii s) then Uncovered
  else if existsb (PyStr.eqb (ascii_lower s)) BOOL_TRUE then Accepted true
  else if existsb (PyStr.eqb (ascii_lower s)) BOOL_FALSE then Accepted false
  else Rejected BoolError.

Definition bool_validator (v : pyval) : outcome bool :=
  match v with
  | PBool b => Accepted b
  | PInt 1%Z => Accepted true
  | PInt 0%Z => Accepted false
  | PStr s => bool_of_text s
  | PTaskType t => bool_of_text (TaskType_value t)
  | PTaskStatus s => bool_of_text (TaskStatus_value s)
  | _ => Rejected BoolError
  end.

Definition TaskType_validator (v : pyval) : outcome TaskType :=
  match v with
  | PTaskType t => Accepted t
  | PStr s =>
      match TaskType_of_value s with
      | Some t => Accepted t
      | None => Rejected EnumMemberError
      end
  | _ => Rejected EnumMemberError
  end.

Definition TaskStatus_validator (v : pyval) : outcome TaskStatus :=
  match v with
  | PTaskStatus s => Accepted s
  | PStr s =>
      match TaskStatus_of_value s with
      | Some t => Accepted t
      | None => Rejected EnumMemberError
      end
  | _ => Rejected EnumMemberError
  end.

Definition datetime_of_text (s : pystr) : outcome datetime :=
  match Datetime.parse_datetime s with
  | Datetime.Parsed d => Accepted d
  | Datetime.NoMatch => Rejected DateTimeError
  | Datetime.OtherForm => Uncovered
  end.

Definition datetime_validator (v : pyval) : outcome datetime :=
  match v with
  | PDatetime d => Accepted d
  | PStr s => datetime_of_text s
  | PTaskType t => datetime_of_text (TaskType_value t)
  | PTaskStatus s => datetime_of_text (TaskStatus_value s)
  | PInt _ | PBool _ => Uncovered
  | _ => Rejected InvalidType
  end.

(** [Dict[str, T]]: a dictionary is rebuilt entry by entry, each value
    through the validator of [T]. *)
Fixpoint dict_items {A : Type} (value : pyval -> outcome A)
    (items : pydict) (acc : list (pystr * A)) : outcome (list (pystr * A)) :=
  match items with
  | [] => Accepted acc
  | (k, v) :: items' =>
      match value v with
      | Accepted a => dict_items value items' (dict_set k a acc)
      | Rejected f => Rejected f
      | Uncovered => Uncovered
      end
  end.

Definition dict_validator {A : Type} (value : pyval -> outcome A) (v : pyval)
  : outcome (list (pystr * A)) :=
  match v with
  | PDict items => dict_items value items []
  | PStr [] => Accepted []
  | PList _ => Uncovered
  | _ => Rejected DictError
  end.

Definition not_none {A : Type} (ty : pyval -> outcome A) (v : pyval) : outcome A :=
  match v with
  | PNone => Rejected NoneIsNotAllowedError
  | _ => ty v
  end.

(** [Optional[T]] *)
Definition optional {A : Type} (ty : pyval -> outcome A) (v : pyval)
  : outcome (option A) :=
  match v with
  | PNone => Accepted None
  | _ => bind (ty v) (fun a => Accepted (Some a))
  end.

(** A field with a plain default ([None] for a required field). *)
Definition field {A : Type} (name : string) (default : option A)
    (validate : pyval -> outcome A) (kwargs : pydict) : outcome A :=
  match dict_get (py name) kwargs with
  | Some v => validate v
  | None =>
      match default with
      | Some d => Accepted d
      | None => Rejected MissingError
      end
  end.

(** A field with a [default_factory]. *)
Definition field_factory {A : Type} (name : string)
    (factory : World -> A * World) (validate : pyval -> outcome A)
    (kwargs : pydict) (w : World) : outcome A * World :=
  match dict_get (py name) kwargs with
  | Some v => (validate v, w)
  | None => let '(d, w') := factory w in (Accepted d, w')
  end.

Definition errors_of {A : Type} (name : string) (r : outcome A)
  : list (pystr * failure) :=
  match r with
  | Rejected f => [(py name, f)]
  | _ => []
  end.

Definition uncovered {A : Type} (r : outcome A) : bool :=
  match r with
  | Uncovered => true
  | _ => false
  end.

(** What [Model(name=value, ...)] does: it returns the object, or raises
    [ValidationError] with the failures, each under the name of its field. *)
Inductive construction (A : Type) : Type :=
| Constructed (a : A)
| ValidationError (errors : list (pystr * failure))
| Unmodelled.
Arguments Constructed {A} a.
Arguments ValidationError {A} errors.
Arguments Unmodelled {A}.

(** The object, when the construction returned one. *)
Definition constructed {A : Type} (r : construction A * World) : option A :=
  match r with
  | (Constructed a, _) => Some a
  | _ => None
  end.

(** [values.get(name)] for the one field the validators look up. *)
Definition accepted {A : Type} (r : outcome A) : option A :=
  match r with
  | Accepted a => Some a
  | _ => None
  end.

(** ** [Task] *)

Definition ascii_upper_char (c : N) : N :=
  if (97 <=? c) && (c <=? 122) then c - 32 else c.

(** [s.capitalize()] for an ASCII identifier. *)
Definition capitalize (s : pystr) : pystr :=
  match s with
  | [] => []
  | c :: r => ascii_upper_char c :: ascii_lower r
  end.

(** [not v] for a value that is [None] or text. *)
Definition falsy (v : option pystr) : bool :=
  match v with
  | None | Some [] => true
  | Some (_ :: _) => false
  end.

Definition is_type (values_type : option TaskType) (t : TaskType) : bool :=
  match values_type with
  | Some t' => TaskType_eqb t' t
  | None => false
  end.

Definition of_text (o : option pystr) : pyval :=
  match o with
  | Some s => PStr s
  | None => PNone
  end.

Definition of_text_dict (o : option (list (pystr * pystr))) : pyval :=
  match o with
  | Some d => PDict (List.map (fun kv => (fst kv, PStr (snd kv))) d)
  | None => PNone
  end.

Definition of_dict (o : option pydict) : pyval :=
  match o with
  | Some d => PDict d
  | None => PNone
  end.

(** [d.isoformat() if d else None]: a datetime is never falsy. *)
Definition of_timestamp (o : option datetime) : pyval :=
  match o with
  | Some d => PStr (Datetime.isoformat d)
  | None => PNone
  end.

Module Task.

Record t : Type := mk {
  id : pystr;
  name : pystr;
  schedule : pystr;
  type : TaskType;
  command : option pystr;
  api_url : option pystr;
  api_method : option pystr;
  api_headers : option (list (pystr * pystr));
  api_body : option pydict;
  prompt : option pystr;
  tool : option pystr;
  method : option pystr;
  params : option pydict;
  reminder_title : option pystr;
  reminder_message : option pystr;
  description : option pystr;
  enabled : bool;
  do_only_once : bool;
  last_run : option datetime;
  next_run : option datetime;
  status : TaskStatus;
  created_at : datetime;
  updated_at : datetime
}.

(** [lambda: f"task_{uuid.uuid4().hex[:12]}"] *)
Definition default_id (w : World) : pystr * World :=
  let '(h, w') := uuid4_hex w in (py "task_" ++ List.firstn 12 h, w').

(** The [pre] validator of name, command, prompt, description,
    reminder_title and reminder_message.  A member of a [str] enumeration
    is an instance of [str]. *)
Definition _ascii_only (v : pyval) : pyval :=
  match v with
  | PStr s => PStr (sanitize_ascii s)
  | PTaskType ty => PStr (sanitize_ascii (TaskType_value ty))
  | PTaskStatus s => PStr (sanitize_ascii (TaskStatus_value s))
  | _ => v
  end.

(** The validators below receive [values.get("type")] as [values_type]:
    the accepted type, or [None] when the type was rejected. *)
Definition _require_command (v : option pystr) (values_type : option TaskType)
  : outcome (option pystr) :=
  if is_type values_type SHELL_COMMAND && falsy v
  then Rejected (ValueError (py "Command is required for shell_command tasks"))
  else Accepted v.

Definition _require_api_url (v : option pystr) (values_type : option TaskType)
  : outcome (option pystr) :=
  if is_type values_type API_CALL && falsy v
  then Rejected (ValueError (py "API URL is required for api_call tasks"))
  else Accepted v.

Definition _require_prompt (v : option pystr) (values_type : option TaskType)
  : outcome (option pystr) :=
  if is_type values_type AI && falsy v
  then Rejected (ValueError (py "Prompt is required for AI tasks"))
  else Accepted v.

Definition _require_reminder_msg (v : option pystr) (values_type : option TaskType)
  : outcome (option pystr) :=
  if is_type values_type REMINDER && falsy v
  then Rejected (ValueError (py "Message is required for reminder tasks"))
  else Accepted v.

Definition _require_tool_fields (v : option pystr) (values_type : option TaskType)
    (field_name : string) : outcome (option pystr) :=
  if is_type values_type TOOL_CALL && falsy v
  then Rejected (ValueError (capitalize (py field_name)
                               ++ py " is required for tool_call tasks"))
  else Accepted v.

Definition text := not_none str_validator.
Definition opt_text := optional str_validator.
Definition any (v : pyval) : outcome pyval := Accepted v.

(** The fields in the order the class declares them, which is the order
    of validation. *)
Definition field_names : list pystr :=
  List.map py
    ["id"; "name"; "schedule"; "type"; "command"; "api_url"; "api_method";
     "api_headers"; "api_body"; "prompt"; "tool"; "method"; "params";
     "reminder_title"; "reminder_message"; "description"; "enabled";
     "do_only_once"; "last_run"; "next_run"; "status"; "created_at";
     "updated_at"]%string.

(** What each field makes of the keyword arguments. *)
Section Fields.

Variable kwargs : pydict.

Definition validate_id (w : World) : outcome pystr * World :=
  field_factory "id" default_id text kwargs w.

Definition validate_name : outcome pystr :=
  field "name" None (fun v => text (_ascii_only v)) kwargs.

Definition validate_schedule : outcome pystr :=
  field "schedule" None text kwargs.

Definition validate_type : outcome TaskType :=
  field "type" (Some SHELL_COMMAND) (not_none TaskType_validator) kwargs.

(** [values.get("type")] for the fields after [type]. *)
Definition values_type : option TaskType := accepted validate_type.

Definition validate_command : outcome (option pystr) :=
  field "command" (Some None)
    (fun v => bind (opt_text (_ascii_only v))
                (fun v => _require_command v values_type)) kwargs.

Definition validate_api_url : outcome (option pystr) :=
  field "api_url" (Some None)
    (fun v => bind (opt_text v) (fun v => _require_api_url v values_type))
    kwargs.

Definition validate_api_method : outcome (option pystr) :=
  field "api_method" (Some None) opt_text kwargs.

Definition validate_api_headers : outcome (option (list (pystr * pystr))) :=
  field "api_headers" (Some None) (optional (dict_validator text)) kwargs.

Definition validate_api_body : outcome (option pydict) :=
  field "api_body" (Some None) (optional (dict_validator any)) kwargs.

Definition validate_prompt : outcome (option pystr) :=
  field "prompt" (Some None)
    (fun v => bind (opt_text (_ascii_only v))
                (fun v => _require_prompt v values_type)) kwargs.

Definition validate_tool : outcome (option pystr) :=
  field "tool" (Some None)
    (fun v => bind (opt_text v)
                (fun v => _require_tool_fields v values_type "tool"))
    kwargs.

Definition validate_method : outcome (option pystr) :=
  field "method" (Some None)
    (fun v => bind (opt_text v)
                (fun v => _require_tool_fields v values_type "method"))
    kwargs.

Definition validate_params : outcome (option pydict) :=
  field "params" (Some None) (optional (dict_validator any)) kwargs.

Definition validate_reminder_title : outcome (option pystr) :=
  field "reminder_title" (Some None) (fun v => opt_text (_ascii_only v))
    kwargs.

Definition validate_reminder_message : outcome (option pystr) :=
  field "reminder_message" (Some None)
    (fun v => bind (opt_text (_ascii_only v))
                (fun v => _require_reminder_msg v values_type)) kwargs.

Definition validate_description : outcome (option pystr) :=
  field "description" (Some None) (fun v => opt_text (_ascii_only v))
    kwargs.

Definition validate_enabled : outcome bool :=
  field "enabled" (Some true) (not_none bool_validator) kwargs.

Definition validate_do_only_once : outcome bool :=
  field "do_only_once" (Some true) (not_none bool_validator) kwargs.

Definition validate_last_run : outcome (option datetime) :=
  field "last_run" (Some None) (optional datetime_validator) kwargs.

Definition validate_next_run : outcome (option datetime) :=
  field "next_run" (Some None) (optional datetime_validator) kwargs.

Definition validate_status : outcome TaskStatus :=
  field "status" (Some PENDING) (not_none TaskStatus_validator) kwargs.

Definition validate_created_at (w : World) : outcome datetime * World :=
  field_factory "created_at" utcnow (not_none datetime_validator) kwargs w.

Definition validate_updated_at (w : World) : outcome datetime * World :=
  field_factory "updated_at" utcnow (not_none datetime_validator) kwargs w.

End Fields.

(** The end of validation: the object when every field was accepted, the
    collected errors otherwise. *)
Definition assemble
    (r_id : outcome pystr)
    (r_name : outcome pystr)
    (r_schedule : outcome pystr)
    (r_type : outcome TaskType)
    (r_command : outcome (option pystr))
    (r_api_url : outcome (option pystr))
    (r_api_method : outcome (option pystr))
    (r_api_headers : outcome (option (list (pystr * pystr))))
    (r_api_body : outcome (option pydict))
    (r_prompt : outcome (option pystr))
    (r_tool : outcome (option pystr))
    (r_method : outcome (option pystr))
    (r_params : outcome (option pydict))
    (r_reminder_title : outcome (option pystr))
    (r_reminder_message : outcome (option pystr))
    (r_description : outcome (option pystr))
    (r_enabled : outcome bool)
    (r_do_only_once : outcome bool)
    (r_last_run : outcome (option datetime))
    (r_next_run : outcome (option datetime))
    (r_status : outcome TaskStatus)
    (r_created_at : outcome datetime)
    (r_updated_at : outcome datetime)
  : construction t :=
  let errors :=
    errors_of "id" r_id ++ errors_of "name" r_name ++
    errors_of "schedule" r_schedule ++ errors_of "type" r_type ++
    errors_of "command" r_command ++ errors_of "api_url" r_api_url ++
    errors_of "api_method" r_api_method ++
    errors_of "api_headers" r_api_headers ++
    errors_of "api_body" r_api_body ++ errors_of "prompt" r_prompt ++
    errors_of "tool" r_tool ++ errors_of "method" r_method ++
    errors_of "params" r_params ++
    errors_of "reminder_title" r_reminder_title ++
    errors_of "reminder_message" r_reminder_message ++
    errors_of "description" r_description ++
    errors_of "enabled" r_enabled ++
    errors_of "do_only_once" r_do_only_once ++
    errors_of "last_run" r_last_run ++ errors_of "next_run" r_next_run ++
    errors_of "status" r_status ++ errors_of "created_at" r_created_at ++
    errors_of "updated_at" r_updated_at in
  let beyond :=
    uncovered r_id || uncovered r_name || uncovered r_schedule ||
    uncovered r_type || uncovered r_command || uncovered r_api_url ||
    uncovered r_api_method || uncovered r_api_headers ||
    uncovered r_api_body || uncovered r_prompt || uncovered r_tool ||
    uncovered r_method || uncovered r_params ||
    uncovered r_reminder_title || uncovered r_reminder_message ||
    uncovered r_description || uncovered r_enabled ||
    uncovered r_do_only_once || uncovered r_last_run ||
    uncovered r_next_run || uncovered r_status || uncovered r_created_at ||
    uncovered r_updated_at in
  match
    r_id, r_name, r_schedule, r_type, r_command, r_api_url, r_api_method,
    r_api_headers, r_api_body, r_prompt, r_tool, r_method, r_params,
    r_reminder_title, r_reminder_message, r_description, r_enabled,
    r_do_only_once, r_last_run, r_next_run, r_status, r_created_at,
    r_updated_at
  with
  | Accepted v_id, Accepted v_name, Accepted v_schedule, Accepted v_type,
    Accepted v_command, Accepted v_api_url, Accepted v_api_method,
    Accepted v_api_headers, Accepted v_api_body, Accepted v_prompt,
    Accepted v_tool, Accepted v_method, Accepted v_params,
    Accepted v_reminder_title, Accepted v_reminder_message,
    Accepted v_description, Accepted v_enabled, Accepted v_do_only_once,
    Accepted v_last_run, Accepted v_next_run, Accepted v_status,
    Accepted v_created_at, Accepted v_updated_at =>
      Constructed
        (mk v_id v_name v_schedule v_type v_command v_api_url v_api_method
            v_api_headers v_api_body v_prompt v_tool v_method v_params
            v_reminder_title v_reminder_message v_description v_enabled
            v_do_only_once v_last_run v_next_run v_status v_created_at
            v_updated_at)
  | _, _, _, _, _, _, _, _, _, _, _, _, _, _, _, _, _, _, _, _, _, _, _ =>
      if beyond then Unmodelled else ValidationError errors
  end.

(** [Task(name=value, ...)] *)
Definition init (kwargs : pydict) (w : World) : construction t * World :=
  let '(r_id, w) := validate_id kwargs w in
  let '(r_created_at, w) := validate_created_at kwargs w in
  let '(r_updated_at, w) := validate_updated_at kwargs w in
  (assemble r_id (validate_name kwargs) (validate_schedule kwargs)
     (validate_type kwargs) (validate_command kwargs)
     (validate_api_url kwargs) (validate_api_method kwargs)
     (validate_api_headers kwargs) (validate_api_body kwargs)
     (validate_prompt kwargs) (validate_tool kwargs)
     (validate_method kwargs) (validate_params kwargs)
     (validate_reminder_title kwargs) (validate_reminder_message kwargs)
     (validate_description kwargs) (validate_enabled kwargs)
     (validate_do_only_once kwargs) (validate_last_run kwargs)
     (validate_next_run kwargs) (validate_status kwargs) r_created_at
     r_updated_at, w).

Definition to_dict (self : t) : pydict :=
  [ (py "id", PStr (id self));
    (py "name", PStr (name self));
    (py "schedule", PStr (schedule self));
    (py "type", PStr (TaskType_value (type self)));
    (py "command", of_text (command self));
    (py "api_url", of_text (api_url self));
    (py "api_method", of_text (api_method self));
    (py "api_headers", of_text_dict (api_headers self));
    (py "api_body", of_dict (api_body self));
    (py "prompt", of_text (prompt self));
    (py "tool", of_text (tool self));
    (py "method", of_text (method self));
    (py "params", of_dict (params self));
    (py "description", of_text (description self));
    (py "enabled", PBool (enabled self));
    (py "do_only_once", PBool (do_only_once self));
    (py "last_run", of_timestamp (last_run self));
    (py "next_run", of_timestamp (next_run self));
    (py "status", PStr (TaskStatus_value (status self)));
    (py "created_at", PStr (Datetime.isoformat (created_at self)));
    (py "updated_at", PStr (Datetime.isoformat (updated_at self)));
    (py "reminder_title", of_text (reminder_title self));
    (py "reminder_message", of_text (reminder_message self)) ].

(** What holds of every Task object: its timestamps are dates that exist,
    and the keys of a dictionary are distinct. *)
Definition exists_date (o : option datetime) : Prop :=
  match o with
  | Some d => Datetime.valid d = true
  | None => True
  end.

Definition distinct_keys {V : Type} (o : option (list (pystr * V))) : Prop :=
  match o with
  | Some d => NoDup (dict_keys d)
  | None => True
  end.

Definition well_formed (self : t) : Prop :=
  exists_date (last_run self) /\ exists_date (next_run self) /\
  Datetime.valid (created_at self) = true /\
  Datetime.valid (updated_at self) = true /\
  distinct_keys (api_headers self) /\ distinct_keys (api_body self) /\
  distinct_keys (params self).

(** The fields that the type requires are present and not empty. *)
Definition required_present (self : t) : Prop :=
  match type self with
  | SHELL_COMMAND => falsy (command self) = false
  | API_CALL => falsy (api_url self) = false
  | AI => falsy (prompt self) = false
  | REMINDER => falsy (reminder_message self) = false
  | TOOL_CALL => falsy (tool self) = false /\ falsy (method self) = false
  end.

(** Text that [sanitize_ascii] leaves as it is. *)
Definition is_sanitized (o : option pystr) : Prop :=
  match o with
  | Some s => sanitize_ascii s = s
  | None => True
  end.

Definition sanitized (self : t) : Prop :=
  sanitize_ascii (name self) = name self /\
  is_sanitized (command self) /\ is_sanitized (prompt self) /\
  is_sanitized (description self) /\ is_sanitized (reminder_title self) /\
  is_sanitized (reminder_message self).

End Task.

(** ** [TaskExecution] *)

Module TaskExecution.

Record t : Type := mk {
  id : pystr;
  task_id : pystr;
  start_time : datetime;
  end_time : option datetime;
  status : TaskStatus;
  output : option pystr;
  error : option pystr
}.

(** [lambda: f"exec_{uuid.uuid4().hex[:12]}"] *)
Definition default_id (w : World) : pystr * World :=
  let '(h, w') := uuid4_hex w in (py "exec_" ++ List.firstn 12 h, w').

(** The [pre] validator of output and error. *)
Definition _ascii_output (v : pyval) : pyval :=
  match v with
  | PStr s => PStr (sanitize_ascii s)
  | PTaskType ty => PStr (sanitize_ascii (TaskType_value ty))
  | PTaskStatus s => PStr (sanitize_ascii (TaskStatus_value s))
  | _ => v
  end.

Definition field_names : list pystr :=
  List.map py
    ["id"; "task_id"; "start_time"; "end_time"; "status"; "output";
     "error"]%string.

Section Fields.

Variable kwargs : pydict.

Definition validate_id (w : World) : outcome pystr * World :=
  field_factory "id" default_id (not_none str_validator) kwargs w.

Definition validate_task_id : outcome pystr :=
  field "task_id" None (not_none str_validator) kwargs.

Definition validate_start_time (w : World) : outcome datetime * World :=
  field_factory "start_time" utcnow (not_none datetime_validator) kwargs w.

Definition validate_end_time : outcome (option datetime) :=
  field "end_time" (Some None) (optional datetime_validator) kwargs.

Definition validate_status : outcome TaskStatus :=
  field "status" (Some RUNNING) (not_none TaskStatus_validator) kwargs.

Definition validate_output : outcome (option pystr) :=
  field "output" (Some None)
    (fun v => optional str_validator (_ascii_output v)) kwargs.

Definition validate_error : outcome (option pystr) :=
  field "error" (Some None)
    (fun v => optional str_validator (_ascii_output v)) kwargs.

End Fields.

Definition assemble
    (r_id : outcome pystr)
    (r_task_id : outcome pystr)
    (r_start_time : outcome datetime)
    (r_end_time : outcome (option datetime))
    (r_status : outcome TaskStatus)
    (r_output : outcome (option pystr))
    (r_error : outcome (option pystr))
  : construction t :=
  let errors :=
    errors_of "id" r_id ++ errors_of "task_id" r_task_id ++
    errors_of "start_time" r_start_time ++
    errors_of "end_time" r_end_time ++ errors_of "status" r_status ++
    errors_of "output" r_output ++ errors_of "error" r_error in
  let beyond :=
    uncovered r_id || uncovered r_task_id || uncovered r_start_time ||
    uncovered r_end_time || uncovered r_status || uncovered r_output ||
    uncovered r_error in
  match
    r_id, r_task_id, r_start_time, r_end_time, r_status, r_output, r_error
  with
  | Accepted v_id, Accepted v_task_id, Accepted v_start_time,
    Accepted v_end_time, Accepted v_status, Accepted v_output,
    Accepted v_error =>
      Constructed
        (mk v_id v_task_id v_start_time v_end_time v_status v_output v_error)
  | _, _, _, _, _, _, _ =>
      if beyond then Unmodelled else ValidationError errors
  end.

(** [TaskExecution(name=value, ...)] *)
Definition init (kwargs : pydict) (w : World) : construction t * World :=
  let '(r_id, w) := validate_id kwargs w in
  let '(r_start_time, w) := validate_start_time kwargs w in
  (assemble r_id (validate_task_id kwargs) r_start_time
     (validate_end_time kwargs) (validate_status kwargs)
     (validate_output kwargs) (validate_error kwargs), w).

Definition to_dict (self : t) : pydict :=
  [ (py "id", PStr (id self));
    (py "task_id", PStr (task_id self));
    (py "start_time", PStr (Datetime.isoformat (start_time self)));
    (py "end_time", of_timestamp (end_time self));
    (py "status", PStr (TaskStatus_value (status self)));
    (py "output", of_text (output self));
    (py "error", of_text (error self)) ].

End TaskExecution.

(** ** The tool-call executor ([executors/tool_call.py]) *)

Module ToolCall.

(** The MCP client: [invoke(tool=..., method=..., params=...)] returns the
    tool's result or raises. *)
Record MCPClient : Type := {
  invoke : option pystr -> option pystr -> pydict -> pycall pyval
}.

Inductive log_record : Type :=
| LogInfo (format : pystr) (args : list pyval)    (* logging.info *)
| LogException (msg : pystr) (e : raised).     (* logging.exception *)

(** [d or {}] *)
Definition or_empty (d : option pydict) : pydict :=
  match d with
  | Some ((_ :: _) as items) => items
  | _ => []
  end.

(** [client.invoke(tool=task.tool, method=task.method,
    params=task.params or {})] *)
Definition invocation (client : MCPClient) (task : Task.t) : pycall pyval :=
  invoke client (Task.tool task) (Task.method task) (or_empty (Task.params task)).

(** The fault [e] is raised inside the [try]: by the invocation, or by the
    serialization of what the invocation returned. *)
Definition raised_in_try (dumps : pyval -> pycall pystr)
    (client : MCPClient) (task : Task.t) (e : raised) : Prop :=
  invocation client task = Raise e \/
  exists result, invocation client task = Return result /\ dumps result = Raise e.

(** The body of [execute(task)], with the records it logs; [dumps] is
    [json.dumps].  The [try] holds the log of the call, the invocation and
    the serialization.  [except Exception] handles the faults that derive
    from [Exception]: it logs the failure and returns the error shape with
    [str(exc)], which runs outside any [try]; any other fault propagates. *)
Definition execute_with (dumps : pyval -> pycall pystr)
    (client : MCPClient) (task : Task.t) : list log_record * pycall pydict :=
  let started :=
    [LogInfo (py "Tool-call %s.%s")
          [of_text (Task.tool task); of_text (Task.method task)]] in
  let body :=
    match invocation client task with
    | Return result =>
        match dumps result with
        | Return data =>
            Return [ (py "status", PStr (py "success"));
                     (py "data", PStr data) ]
        | Raise e => Raise e
        end
    | Raise e => Raise e
    end in
  match body with
  | Return d => (started, Return d)
  | Raise exc =>
      if derives_Exception exc then
        (started ++ [LogException (py "Tool-call failed") exc],
         match str_of exc with
         | Return text =>
             Return [ (py "status", PStr (py "error"));
                      (py "error", PStr text) ]
         | Raise fault => Raise fault
         end)
      else (started, Raise exc)
  end.

(** [execute(task)] *)
Definition execute (client : MCPClient) (task : Task.t)
  : list log_record * pycall pydict :=
  execute_with Json.dumps client task.

End ToolCall.

(** ** Objects whose timestamps are dates that exist *)

Definition task_dates_exist (t : Task.t) : Prop :=
  Task.exists_date (Task.last_run t) /\ Task.exists_date (Task.next_run t) /\
  Datetime.valid (Task.created_at t) = true /\
  Datetime.valid (Task.updated_at t) = true.

Definition execution_dates_exist (e : TaskExecution.t) : Prop :=
  Datetime.valid (TaskExecution.start_time e) = true /\
  Task.exists_date (TaskExecution.end_time e).

(** The keyword arguments give the type [ty]: as the member, as its tag,
    or, for the default type, by leaving the keyword out. *)
Definition type_keyword_is (kwargs : pydict) (ty : TaskType) : Prop :=
  dict_get (py "type") kwargs = Some (PTaskType ty) \/
  dict_get (py "type") kwargs = Some (PStr (TaskType_value ty)) \/
  (ty = SHELL_COMMAND /\ dict_get (py "type") kwargs = None).

(** A keyword passed with nothing in it: [None] or the empty text. *)
Definition passed_empty (kwargs : pydict) (name : string) : Prop :=
  dict_get (py name) kwargs = Some PNone \/
  dict_get (py name) kwargs = Some (PStr []).

(** [Task(name=value, ...)] gives no object, and its ValidationError lists
    the failure [f] under the field [name]. *)
Definition refuses_with (kwargs : pydict) (w : World) (name : string)
    (f : failure) : Prop :=
  (forall t, fst (Task.init kwargs w) <> Constructed t) /\
  (forall errs, fst (Task.init kwargs w) = ValidationError errs ->
                List.In (py name, f) errs).

(** The graphic characters of ASCII and the space, U+0020..U+007E. *)
Definition is_graphic (s : pystr) : bool :=
  forallb (fun c => (32 <=? c) && (c <=? 126)) s.

(** ** Sample data *)

Module Samples.

(** A world whose clock starts on 2024-01-01 and advances a second a
    reading, and whose uuids are all the same text. *)
Definition world0 : World :=
  {| uuid_hex := fun _ => py "0123456789abcdef0123456789abcdef";
     clock := fun n => Datetime.mk 2024 1 1 0 0 (N.of_nat n) 0;
     uuid_calls := 0;
     clock_calls := 0 |}.

(** ESC [ 2 J, the terminal sequence that clears the screen. *)
Definition clear_screen : pystr := [27; 91; 50; 74].

(** "h", e-acute, the euro sign, "i". *)
Definition accented : pystr := [104; 233; 8364; 105].

Definition every_minute : pystr := py "* * * * *".

(** [Task(name="h\u00e9\u20aci", schedule="* * * * *", ...)] with the same
    accented text in every sanitized field. *)
Definition accented_task_kwargs : pydict :=
  [ (py "name", PStr accented);
    (py "schedule", PStr every_minute);
    (py "type", PTaskType SHELL_COMMAND);
    (py "command", PStr accented);
    (py "prompt", PStr accented);
    (py "description", PStr accented);
    (py "reminder_title", PStr accented);
    (py "reminder_message", PStr accented) ].

(** [TaskExecution(task_id="task_1", output=..., error=...)] *)
Definition accented_execution_kwargs : pydict :=
  [ (py "task_id", PStr (py "task_1"));
    (py "output", PStr accented);
    (py "error", PStr accented) ].

(** [Task(name="\x1b[2J", schedule="* * * * *", command="echo hi")] *)
Definition clear_screen_kwargs : pydict :=
  [ (py "name", PStr clear_screen);
    (py "schedule", PStr every_minute);
    (py "command", PStr (py "echo hi")) ].

(** The task of [test_scheduler_tool_call]. *)
Definition ping_kwargs : pydict :=
  [ (py "name", PStr (py "Ping MCP"));
    (py "schedule", PStr (py "@once"));
    (py "type", PTaskType TOOL_CALL);
    (py "tool", PStr (py "meta-ads-mcp"));
    (py "method", PStr (py "ping"));
    (py "params", PDict []) ].

Definition ping_task : Task.t :=
  Task.mk (py "task_0123456789ab") (py "Ping MCP") (py "@once") TOOL_CALL
    None None None None None None
    (Some (py "meta-ads-mcp")) (Some (py "ping")) (Some [])
    None None None true true None None PENDING
    (Datetime.mk 2024 1 1 0 0 0 0) (Datetime.mk 2024 1 1 0 0 1 0).

(** [fake_invoke] of the same test: it asserts the tool and the method and
    returns [{"pong": True}]. *)
Definition fake_invoke (tool method : option pystr) (params : pydict)
  : pycall pyval :=
  match tool, method with
  | Some tl, Some m =>
      if PyStr.eqb tl (py "meta-ads-mcp") && PyStr.eqb m (py "ping")
      then Return (PDict [(py "pong", PBool true)])
      else Raise (Fault true [])
  | _, _ => Raise (Fault true [])
  end.

Definition fake_client : ToolCall.MCPClient := {| ToolCall.invoke := fake_invoke |}.

(** A client whose tool returns a Python [set]. *)
Definition set_client : ToolCall.MCPClient :=
  {| ToolCall.invoke := fun _ _ _ => Return (PObject (py "set")) |}.

(** A client that cannot reach its server. *)
Definition unreachable_client : ToolCall.MCPClient :=
  {| ToolCall.invoke := fun _ _ _ =>
       Raise (Fault true (py "connection refused")) |}.

(** A client whose call the user interrupts: [KeyboardInterrupt] does not
    derive from [Exception]. *)
Definition interrupted_client : ToolCall.MCPClient :=
  {| ToolCall.invoke := fun _ _ _ => Raise (Fault false []) |}.

(** A client whose fault cannot be printed: the [__str__] of its class
    raises a [RuntimeError]. *)
Definition unprintable_client : ToolCall.MCPClient :=
  {| ToolCall.invoke := fun _ _ _ =>
       Raise (Unprintable true (Fault true (py "no message"))) |}.

(** The text [{"pong": true}]. *)
Definition pong_text : pystr :=
  [123; 34] ++ py "pong" ++ [34] ++ py ": true}".

(** The task of [test_scheduler_run_task_now]. *)
Definition echo_kwargs : pydict :=
  [ (py "name", PStr (py "Test2"));
    (py "schedule", PStr every_minute);
    (py "type", PTaskType SHELL_COMMAND);
    (py "command", PStr (py "echo hi")) ].

Definition echo_task : Task.t :=
  Task.mk (py "task_0123456789ab") (py "Test2") every_minute SHELL_COMMAND
    (Some (py "echo hi")) None None None None None None None None
    None None None true true None None PENDING
    (Datetime.mk 2024 1 1 0 0 0 0) (Datetime.mk 2024 1 1 0 0 1 0).

(** An api_call task that has run, with every kind of field filled in. *)
Definition webhook_task : Task.t :=
  Task.mk (py "task_00ff00ff00ff") (py "Nightly hook") (py "0 3 * * *") API_CALL
    None (Some (py "https://example.org/hook")) (Some (py "POST"))
    (Some [(py "Accept", py "application/json"); (py "X-Run", py "1")])
    (Some [(py "n", PInt 3); (py "tags", PList [PStr (py "a"); PNone])])
    None None None None
    (Some (py "Hook")) None (Some (py "calls the hook"))
    true false
    (Some (Datetime.mk 2024 2 29 3 0 0 123)) (Some (Datetime.mk 2024 3 1 3 0 0 0))
    PENDING
    (Datetime.mk 2023 12 31 23 59 59 999999) (Datetime.mk 2024 2 29 3 0 1 0).

(** An api_call task whose id, schedule, URL, HTTP method, tool and method
    all hold the accented text. *)
Definition accented_api_kwargs : pydict :=
  [ (py "id", PStr accented);
    (py "name", PStr (py "hook"));
    (py "schedule", PStr accented);
    (py "type", PStr (py "api_call"));
    (py "api_url", PStr accented);
    (py "api_method", PStr accented);
    (py "tool", PStr accented);
    (py "method", PStr accented);
    (py "status", PStr (py "failed")) ].

(** The keywords of [echo_kwargs] in another order, with a keyword that
    [Task] does not declare. *)
Definition echo_kwargs_shuffled : pydict :=
  [ (py "cmd", PStr (py "rm -rf /"));
    (py "command", PStr (py "echo hi"));
    (py "type", PTaskType SHELL_COMMAND);
    (py "schedule", PStr every_minute);
    (py "name", PStr (py "Test2")) ].

(** A failed execution that took a little more than two seconds. *)
Definition failed_execution : TaskExecution.t :=
  TaskExecution.mk (py "exec_00ff00ff00ff") (py "task_00ff00ff00ff")
    (Datetime.mk 2024 2 29 3 0 0 0) (Some (Datetime.mk 2024 2 29 3 0 2 50000))
    FAILED None (Some (py "exit status 1")).

(** The ping task with a datetime among the params of the call. *)
Definition dated_task : Task.t :=
  Task.mk (py "task_0123456789ab") (py "Ping MCP") (py "@once") TOOL_CALL
    None None None None None None
    (Some (py "meta-ads-mcp")) (Some (py "ping"))
    (Some [(py "since", PDatetime (Datetime.mk 2024 1 1 0 0 0 0))])
    None None None true true None None PENDING
    (Datetime.mk 2024 1 1 0 0 0 0) (Datetime.mk 2024 1 1 0 0 1 0).

(** A tool_call task with the tool passed as the empty text and the method
    as [None]. *)
Definition empty_tool_kwargs : pydict :=
  [ (py "name", PStr (py "Ping MCP"));
    (py "schedule", PStr (py "@once"));
    (py "type", PStr (py "tool_call"));
    (py "tool", PStr []);
    (py "method", PNone) ].

End Samples.

(** * Properties *)

(** ** Text *)

Lemma pystr_eqb_spec a b : reflect (a = b) (PyStr.eqb a b).
Proof.
  revert b; induction a as [|x a IH]; intros [|y b]; simpl;
    try (constructor; congruence).
  destruct (N.eqb_spec x y) as [->|Hne]; simpl.
  - destruct (IH b) as [->|Hne]; constructor; congruence.
  - constructor; congruence.
Qed.

Lemma pystr_eqb_refl a : PyStr.eqb a a = true.
Proof. destruct (pystr_eqb_spec a a); congruence. Qed.

Lemma pystr_eqb_eq a b : PyStr.eqb a b = true <-> a = b.
Proof. destruct (pystr_eqb_spec a b); split; congruence. Qed.

Lemma pystr_eqb_neq a b : a <> b -> PyStr.eqb a b = false.
Proof. destruct (pystr_eqb_spec a b); congruence. Qed.

(** ** [sanitize_ascii] *)

Section SanitizeFacts.

Lemma re_sub_non_ascii_filter text :
  re_sub_non_ascii text = List.filter (fun c => negb (non_ascii c)) text.
Proof.
  induction text as [|c rest IH]; [reflexivity|].
  cbn [re_sub_non_ascii List.filter].
  destruct (non_ascii c); cbn [negb]; [|now rewrite IH].
  rewrite <- IH. clear IH.
  destruct rest as [|d r]; [reflexivity|].
  cbn [re_sub_non_ascii].
  destruct (non_ascii d); reflexivity.
Qed.

(** The function keeps, in order, exactly the characters up to U+007F. *)
Lemma sanitize_ascii_filter text :
  sanitize_ascii text = List.filter (fun c => c <=? 127) text.
Proof.
  unfold sanitize_ascii. destruct text as [|c r]; [reflexivity|].
  rewrite re_sub_non_ascii_filter. apply List.filter_ext.
  intros a. unfold non_ascii.
  destruct (N.ltb_spec 127 a), (N.leb_spec a 127); simpl; try reflexivity; lia.
Qed.

Lemma sanitize_ascii_is_ascii text : is_ascii (sanitize_ascii text) = true.
Proof.
  rewrite sanitize_ascii_filter. unfold is_ascii.
  apply List.forallb_forall. intros c Hc.
  apply List.filter_In in Hc. tauto.
Qed.

Lemma sanitize_ascii_fixes_ascii text :
  is_ascii text = true -> sanitize_ascii text = text.
Proof.
  rewrite sanitize_ascii_filter. unfold is_ascii.
  induction text as [|c r IH]; simpl; [reflexivity|].
  intros H. apply andb_prop in H as [Hc Hr].
  rewrite Hc, (IH Hr). reflexivity.
Qed.

Lemma sanitize_ascii_idempotent text :
  sanitize_ascii (sanitize_ascii text) = sanitize_ascii text.
Proof. apply sanitize_ascii_fixes_ascii, sanitize_ascii_is_ascii. Qed.

Lemma sanitize_ascii_empty : sanitize_ascii [] = [].
Proof. reflexivity. Qed.

End SanitizeFacts.

(** C10. [sanitize_ascii] is idempotent, and it is the identity on the
    strings that hold only ASCII characters, the empty string among them. *)
Theorem sanitize_ascii_idempotent_identity_on_ascii :
  (forall s : pystr, sanitize_ascii (sanitize_ascii s) = sanitize_ascii s) /\
  (forall s : pystr, is_ascii s = true -> sanitize_ascii s = s) /\
  is_ascii [] = true /\ sanitize_ascii [] = [].
Proof.
  repeat split.
  - apply sanitize_ascii_idempotent.
  - apply sanitize_ascii_fixes_ascii.
Qed.

Lemma sanitize_ascii_idempotent_identity_on_ascii_witness :
  sanitize_ascii (sanitize_ascii Samples.accented) = sanitize_ascii Samples.accented /\
  is_ascii (py "echo hi") = true /\
  sanitize_ascii (py "echo hi") = py "echo hi".
Proof.
  destruct sanitize_ascii_idempotent_identity_on_ascii as (Hidem & Hid & _ & _).
  split; [apply Hidem|].
  split; [reflexivity|].
  apply Hid. reflexivity.
Defined.

(** ** Construction *)

(** One step of the inversion of [assemble]: the next outcome is split, and
    the two cases that do not construct are closed. *)
Ltac split_outcome H r :=
  destruct r;
  [ | exfalso; cbv beta iota zeta in H;
      match type of H with
      | (if ?b then _ else _) = _ => destruct b; discriminate H
      end .. ].

Lemma Task_assemble_inv
    r_id r_name r_schedule r_type r_command r_api_url r_api_method
    r_api_headers r_api_body r_prompt r_tool r_method r_params
    r_reminder_title r_reminder_message r_description r_enabled
    r_do_only_once r_last_run r_next_run r_status r_created_at r_updated_at t :
  Task.assemble r_id r_name r_schedule r_type r_command r_api_url r_api_method
    r_api_headers r_api_body r_prompt r_tool r_method r_params
    r_reminder_title r_reminder_message r_description r_enabled
    r_do_only_once r_last_run r_next_run r_status r_created_at r_updated_at
  = Constructed t ->
  r_id = Accepted (Task.id t) /\ r_name = Accepted (Task.name t) /\
  r_schedule = Accepted (Task.schedule t) /\ r_type = Accepted (Task.type t) /\
  r_command = Accepted (Task.command t) /\
  r_api_url = Accepted (Task.api_url t) /\
  r_api_method = Accepted (Task.api_method t) /\
  r_api_headers = Accepted (Task.api_headers t) /\
  r_api_body = Accepted (Task.api_body t) /\
  r_prompt = Accepted (Task.prompt t) /\ r_tool = Accepted (Task.tool t) /\
  r_method = Accepted (Task.method t) /\ r_params = Accepted (Task.params t) /\
  r_reminder_title = Accepted (Task.reminder_title t) /\
  r_reminder_message = Accepted (Task.reminder_message t) /\
  r_description = Accepted (Task.description t) /\
  r_enabled = Accepted (Task.enabled t) /\
  r_do_only_once = Accepted (Task.do_only_once t) /\
  r_last_run = Accepted (Task.last_run t) /\
  r_next_run = Accepted (Task.next_run t) /\
  r_status = Accepted (Task.status t) /\
  r_created_at = Accepted (Task.created_at t) /\
  r_updated_at = Accepted (Task.updated_at t).
Proof.
  intros H. unfold Task.assemble in H.
  split_outcome H r_id. split_outcome H r_name. split_outcome H r_schedule.
  split_outcome H r_type. split_outcome H r_command. split_outcome H r_api_url.
  split_outcome H r_api_method. split_outcome H r_api_headers.
  split_outcome H r_api_body. split_outcome H r_prompt. split_outcome H r_tool.
  split_outcome H r_method. split_outcome H r_params.
  split_outcome H r_reminder_title. split_outcome H r_reminder_message.
  split_outcome H r_description. split_outcome H r_enabled.
  split_outcome H r_do_only_once. split_outcome H r_last_run.
  split_outcome H r_next_run. split_outcome H r_status.
  split_outcome H r_created_at. split_outcome H r_updated_at.
  injection H as <-. cbn. repeat split.
Qed.

Lemma Task_init_inv kwargs w t w' :
  Task.init kwargs w = (Constructed t, w') ->
  (exists w1 w2,
      Task.validate_id kwargs w = (Accepted (Task.id t), w1) /\
      Task.validate_created_at kwargs w1 = (Accepted (Task.created_at t), w2) /\
      Task.validate_updated_at kwargs w2 = (Accepted (Task.updated_at t), w')) /\
  Task.validate_name kwargs = Accepted (Task.name t) /\
  Task.validate_schedule kwargs = Accepted (Task.schedule t) /\
  Task.validate_type kwargs = Accepted (Task.type t) /\
  Task.validate_command kwargs = Accepted (Task.command t) /\
  Task.validate_api_url kwargs = Accepted (Task.api_url t) /\
  Task.validate_api_method kwargs = Accepted (Task.api_method t) /\
  Task.validate_api_headers kwargs = Accepted (Task.api_headers t) /\
  Task.validate_api_body kwargs = Accepted (Task.api_body t) /\
  Task.validate_prompt kwargs = Accepted (Task.prompt t) /\
  Task.validate_tool kwargs = Accepted (Task.tool t) /\
  Task.validate_method kwargs = Accepted (Task.method t) /\
  Task.validate_params kwargs = Accepted (Task.params t) /\
  Task.validate_reminder_title kwargs = Accepted (Task.reminder_title t) /\
  Task.validate_reminder_message kwargs = Accepted (Task.reminder_message t) /\
  Task.validate_description kwargs = Accepted (Task.description t) /\
  Task.validate_enabled kwargs = Accepted (Task.enabled t) /\
  Task.validate_do_only_once kwargs = Accepted (Task.do_only_once t) /\
  Task.validate_last_run kwargs = Accepted (Task.last_run t) /\
  Task.validate_next_run kwargs = Accepted (Task.next_run t) /\
  Task.validate_status kwargs = Accepted (Task.status t).
Proof.
  unfold Task.init.
  destruct (Task.validate_id kwargs w) as [r_id w1] eqn:Hid.
  destruct (Task.validate_created_at kwargs w1) as [r_created w2] eqn:Hcreated.
  destruct (Task.validate_updated_at kwargs w2) as [r_updated w3] eqn:Hupdated.
  intros H. injection H as H <-.
  apply Task_assemble_inv in H.
  destruct H as (-> & Hname & Hsched & Htype & Hcmd & Hurl & Hmeth & Hhead
                 & Hbody & Hprompt & Htool & Hmethod & Hparams & Htitle
                 & Hmsg & Hdesc & Hen & Honce & Hlast & Hnext & Hstatus
                 & -> & ->).
  split; [exists w1, w2; repeat split; assumption|].
  repeat split; assumption.
Qed.

Lemma TaskExecution_init_inv kwargs w e w' :
  TaskExecution.init kwargs w = (Constructed e, w') ->
  (exists w1,
      TaskExecution.validate_id kwargs w = (Accepted (TaskExecution.id e), w1) /\
      TaskExecution.validate_start_time kwargs w1
      = (Accepted (TaskExecution.start_time e), w')) /\
  TaskExecution.validate_task_id kwargs = Accepted (TaskExecution.task_id e) /\
  TaskExecution.validate_end_time kwargs = Accepted (TaskExecution.end_time e) /\
  TaskExecution.validate_status kwargs = Accepted (TaskExecution.status e) /\
  TaskExecution.validate_output kwargs = Accepted (TaskExecution.output e) /\
  TaskExecution.validate_error kwargs = Accepted (TaskExecution.error e).
Proof.
  unfold TaskExecution.init.
  destruct (TaskExecution.validate_id kwargs w) as [r_id w1] eqn:Hid.
  destruct (TaskExecution.validate_start_time kwargs w1) as [r_start w2] eqn:Hstart.
  intros H. injection H as H <-.
  unfold TaskExecution.assemble in H.
  split_outcome H r_id.
  split_outcome H (TaskExecution.validate_task_id kwargs).
  split_outcome H r_start.
  split_outcome H (TaskExecution.validate_end_time kwargs).
  split_outcome H (TaskExecution.validate_status kwargs).
  split_outcome H (TaskExecution.validate_output kwargs).
  split_outcome H (TaskExecution.validate_error kwargs).
  injection H as <-.
  split; [exists w1; split; first [assumption | reflexivity]|]. repeat split.
Qed.

(** ** Stored text *)

Section StoredText.

Variable kwargs : pydict.
Variable name : string.
Variable s : pystr.
Hypothesis supplied : dict_get (py name) kwargs = Some (PStr s).

(** A text field whose [pre] validator is [_ascii_only], followed by a
    validator that returns its argument or raises. *)
Lemma checked_text_field_stored default (post : option pystr -> outcome (option pystr)) x :
  (forall v r, post v = Accepted r -> r = v) ->
  field name default
    (fun v => bind (Task.opt_text (Task._ascii_only v)) post) kwargs
  = Accepted x ->
  x = Some (sanitize_ascii s).
Proof.
  intros Hpost. unfold field. rewrite supplied.
  cbn [Task._ascii_only Task.opt_text optional str_validator bind].
  intros H. now apply Hpost in H.
Qed.

Lemma text_field_stored default x :
  field name default (fun v => Task.opt_text (Task._ascii_only v)) kwargs
  = Accepted x ->
  x = Some (sanitize_ascii s).
Proof.
  unfold field. rewrite supplied.
  cbn [Task._ascii_only Task.opt_text optional str_validator bind].
  congruence.
Qed.

Lemma output_field_stored default x :
  field name default
    (fun v => optional str_validator (TaskExecution._ascii_output v)) kwargs
  = Accepted x ->
  x = Some (sanitize_ascii s).
Proof.
  unfold field. rewrite supplied.
  cbn [TaskExecution._ascii_output optional str_validator bind].
  congruence.
Qed.

End StoredText.

Lemma require_returns_argument (cond : bool) (f : failure) (v r : option pystr) :
  (if cond then Rejected f else Accepted v) = Accepted r -> r = v.
Proof. destruct cond; congruence. Qed.

Lemma Task_name_stored kwargs s x :
  dict_get (py "name") kwargs = Some (PStr s) ->
  Task.validate_name kwargs = Accepted x -> x = sanitize_ascii s.
Proof.
  intros Hs. unfold Task.validate_name, field. rewrite Hs.
  cbn [Task._ascii_only Task.text not_none str_validator]. congruence.
Qed.

(** C3, as amended.  Text supplied for the name, command, prompt,
    description, reminder_title or reminder_message of a Task, or for the
    output or error of a TaskExecution, is stored as [sanitize_ascii] of it.
    [sanitize_ascii] keeps, in order, the characters U+0000..U+007F, control
    characters included, and drops every other character; so the stored
    text holds only ASCII characters. *)
Theorem free_text_is_stored_sanitized :
  (forall kwargs w t w',
      Task.init kwargs w = (Constructed t, w') ->
      forall s,
        (dict_get (py "name") kwargs = Some (PStr s) ->
         Task.name t = sanitize_ascii s) /\
        (dict_get (py "command") kwargs = Some (PStr s) ->
         Task.command t = Some (sanitize_ascii s)) /\
        (dict_get (py "prompt") kwargs = Some (PStr s) ->
         Task.prompt t = Some (sanitize_ascii s)) /\
        (dict_get (py "description") kwargs = Some (PStr s) ->
         Task.description t = Some (sanitize_ascii s)) /\
        (dict_get (py "reminder_title") kwargs = Some (PStr s) ->
         Task.reminder_title t = Some (sanitize_ascii s)) /\
        (dict_get (py "reminder_message") kwargs = Some (PStr s) ->
         Task.reminder_message t = Some (sanitize_ascii s))) /\
  (forall kwargs w e w',
      TaskExecution.init kwargs w = (Constructed e, w') ->
      forall s,
        (dict_get (py "output") kwargs = Some (PStr s) ->
         TaskExecution.output e = Some (sanitize_ascii s)) /\
        (dict_get (py "error") kwargs = Some (PStr s) ->
         TaskExecution.error e = Some (sanitize_ascii s))) /\
  (forall s, sanitize_ascii s = List.filter (fun c => c <=? 127) s) /\
  (forall s, is_ascii (sanitize_ascii s) = true).
Proof.
  split; [|split; [|split]].
  - intros kwargs w t w' H s.
    apply Task_init_inv in H.
    destruct H as (_ & Hname & _ & _ & Hcmd & _ & _ & _ & _ & Hprompt & _ & _
                   & _ & Htitle & Hmsg & Hdesc & _).
    repeat split; intros Hs.
    + exact (Task_name_stored kwargs s _ Hs Hname).
    + eapply checked_text_field_stored; [exact Hs| |exact Hcmd].
      intros v r. apply require_returns_argument.
    + eapply checked_text_field_stored; [exact Hs| |exact Hprompt].
      intros v r. apply require_returns_argument.
    + eapply text_field_stored; [exact Hs|exact Hdesc].
    + eapply text_field_stored; [exact Hs|exact Htitle].
    + eapply checked_text_field_stored; [exact Hs| |exact Hmsg].
      intros v r. apply require_returns_argument.
  - intros kwargs w e w' H s.
    apply TaskExecution_init_inv in H.
    destruct H as (_ & _ & _ & _ & Hout & Herr).
    split; intros Hs.
    + eapply output_field_stored; [exact Hs|exact Hout].
    + eapply output_field_stored; [exact Hs|exact Herr].
  - apply sanitize_ascii_filter.
  - apply sanitize_ascii_is_ascii.
Qed.

Lemma free_text_is_stored_sanitized_witness :
  (exists t w',
      Task.init Samples.accented_task_kwargs Samples.world0 = (Constructed t, w') /\
      Task.name t = py "hi" /\ Task.command t = Some (py "hi") /\
      Task.prompt t = Some (py "hi") /\
      Task.description t = Some (py "hi") /\
      Task.reminder_title t = Some (py "hi") /\
      Task.reminder_message t = Some (py "hi")) /\
  (exists e w',
      TaskExecution.init Samples.accented_execution_kwargs Samples.world0
      = (Constructed e, w') /\
      TaskExecution.output e = Some (py "hi") /\
      TaskExecution.error e = Some (py "hi")).
Proof.
  destruct free_text_is_stored_sanitized as (HT & HE & _ & _).
  split.
  - destruct (Task.init Samples.accented_task_kwargs Samples.world0)
      as [c w'] eqn:H.
    assert (exists t, c = Constructed t) as [t ->].
    { vm_compute in H. injection H as <- _. eexists; reflexivity. }
    exists t, w'. split; [reflexivity|].
    destruct (HT _ _ _ _ H Samples.accented) as (H1 & H2 & H3 & H4 & H5 & H6).
    repeat split;
      [ apply H1 | apply H2 | apply H3 | apply H4 | apply H5 | apply H6 ];
      reflexivity.
  - destruct (TaskExecution.init Samples.accented_execution_kwargs Samples.world0)
      as [c w'] eqn:H.
    assert (exists e, c = Constructed e) as [e ->].
    { vm_compute in H. injection H as <- _. eexists; reflexivity. }
    exists e, w'. split; [reflexivity|].
    destruct (HE _ _ _ _ H Samples.accented) as (H1 & H2).
    split; [apply H1 | apply H2]; reflexivity.
Defined.

(** C3, as stated, fails: the escape character U+001B is not printable, and
    a name that holds it is stored unchanged. *)
Lemma control_characters_are_stored :
  option_map Task.name
    (constructed (Task.init Samples.clear_screen_kwargs Samples.world0))
  = Some Samples.clear_screen /\
  sanitize_ascii Samples.clear_screen = Samples.clear_screen /\
  is_printable Samples.clear_screen = false.
Proof. repeat split. Qed.

(** ** Defaults *)

(** Evaluates a construction from literal keyword arguments. *)
Ltac run_init :=
  match goal with
  | |- exists t w', ?init ?kwargs ?w = (Constructed t, w') /\ _ =>
      let c := fresh "c" in
      let w' := fresh "w'" in
      let H := fresh "H" in
      destruct (init kwargs w) as [c w'] eqn:H;
      vm_compute in H; injection H as <- <-;
      eexists; eexists; split; [reflexivity|]
  end.

(** C8. A Task constructed from a name and a schedule alone has
    type=shell_command, enabled=true, do_only_once=true, status=pending, no
    last_run and no next_run, and a newly drawn id that starts with
    ["task_"]; it is one-shot unless do_only_once is given as false. *)
Theorem task_defaults :
  (forall (n s : pystr) (w : World),
      exists t w',
        Task.init [(py "name", PStr n); (py "schedule", PStr s)] w
        = (Constructed t, w') /\
        Task.type t = SHELL_COMMAND /\ Task.enabled t = true /\
        Task.do_only_once t = true /\ Task.status t = PENDING /\
        Task.last_run t = None /\ Task.next_run t = None /\
        Task.id t = py "task_" ++ List.firstn 12 (uuid_hex w (uuid_calls w)) /\
        PyStr.starts_with (py "task_") (Task.id t) = true /\
        uuid_calls w' = S (uuid_calls w)) /\
  (forall (n s : pystr) (w : World),
      exists t w',
        Task.init [(py "name", PStr n); (py "schedule", PStr s);
                   (py "do_only_once", PBool false)] w
        = (Constructed t, w') /\
        Task.do_only_once t = false).
Proof.
  split; intros n s w; run_init; repeat split.
Qed.

(** C7. A TaskExecution constructed from a task_id alone is running, its
    start_time is the reading of the clock at the construction, and it has no
    end_time, no output and no error. *)
Theorem execution_opens_running :
  forall (task_id : pystr) (w : World),
    exists e w',
      TaskExecution.init [(py "task_id", PStr task_id)] w
      = (Constructed e, w') /\
      TaskExecution.task_id e = task_id /\
      TaskExecution.status e = RUNNING /\
      TaskExecution.start_time e = clock w (clock_calls w) /\
      clock_calls w' = S (clock_calls w) /\
      TaskExecution.end_time e = None /\
      TaskExecution.output e = None /\
      TaskExecution.error e = None.
Proof.
  intros task_id w; run_init; repeat split.
Qed.

(** ** Required fields *)

(** C1, on the code.  When the keyword of the field that a type requires is
    not passed, the validator of that field does not run, and the Task is
    constructed with the field empty; so for every type, and for api_call
    without api_url. *)
Theorem task_without_required_field_is_constructed :
  forall (ty : TaskType) (n s : pystr) (w : World),
    exists t w',
      Task.init [(py "name", PStr n); (py "schedule", PStr s);
                 (py "type", PStr (TaskType_value ty))] w
      = (Constructed t, w') /\
      Task.type t = ty /\
      Task.command t = None /\ Task.api_url t = None /\ Task.prompt t = None /\
      Task.reminder_message t = None /\ Task.tool t = None /\
      Task.method t = None.
Proof.
  intros ty n s w; destruct ty; run_init; repeat split.
Qed.

(** Supplying the field empty is what makes its validator run: the
    construction is then refused under the name of the field. *)
Lemma required_field_given_empty_is_rejected :
  forall (n s : pystr) (w : World) (v : pyval),
    v = PNone \/ v = PStr [] ->
    let base := [(py "name", PStr n); (py "schedule", PStr s)] in
    fst (Task.init (base ++ [(py "type", PStr (py "shell_command"));
                             (py "command", v)]) w)
    = ValidationError
        [(py "command",
          ValueError (py "Command is required for shell_command tasks"))] /\
    fst (Task.init (base ++ [(py "type", PStr (py "api_call"));
                             (py "api_url", v)]) w)
    = ValidationError
        [(py "api_url", ValueError (py "API URL is required for api_call tasks"))] /\
    fst (Task.init (base ++ [(py "type", PStr (py "ai")); (py "prompt", v)]) w)
    = ValidationError
        [(py "prompt", ValueError (py "Prompt is required for AI tasks"))] /\
    fst (Task.init (base ++ [(py "type", PStr (py "reminder"));
                             (py "reminder_message", v)]) w)
    = ValidationError
        [(py "reminder_message",
          ValueError (py "Message is required for reminder tasks"))] /\
    fst (Task.init (base ++ [(py "type", PStr (py "tool_call"));
                             (py "tool", v); (py "method", v)]) w)
    = ValidationError
        [(py "tool", ValueError (py "Tool is required for tool_call tasks"));
         (py "method", ValueError (py "Method is required for tool_call tasks"))].
Proof.
  intros n s w v [-> | ->]; repeat split.
Qed.

(** ** Timestamps *)

Section DatetimeFacts.

Import Datetime.

Lemma is_digit_digit_char n : is_digit (digit_char n) = true.
Proof.
  unfold is_digit, digit_char.
  pose proof (N.mod_upper_bound n 10 ltac:(lia)) as H.
  generalize dependent (n mod 10). intros r Hr.
  apply andb_true_intro; split; apply N.leb_le; lia.
Qed.

Lemma digits_rev_length k : forall n, List.length (digits_rev k n) = k.
Proof. induction k; intros n; simpl; [reflexivity | now rewrite IHk]. Qed.

Lemma zfill_length k n : List.length (zfill k n) = k.
Proof. unfold zfill. now rewrite List.length_rev, digits_rev_length. Qed.

Lemma digits_rev_all_digits k : forall n c,
  List.In c (digits_rev k n) -> is_digit c = true.
Proof.
  induction k; intros n c; simpl; [tauto|].
  intros [<- | H]; [apply is_digit_digit_char | eauto].
Qed.

Lemma zfill_all_digits k n : forallb is_digit (zfill k n) = true.
Proof.
  apply List.forallb_forall. intros c Hc.
  apply List.in_rev in Hc. eapply digits_rev_all_digits; eauto.
Qed.

Lemma zfill_succ k n : zfill (S k) n = zfill k (n / 10) ++ [digit_char n].
Proof. reflexivity. Qed.

Lemma read_digits_prefix ds : forall rest,
  forallb is_digit ds = true ->
  read_digits (List.length ds) (ds ++ rest) = (ds, rest).
Proof.
  induction ds as [|c ds IH]; intros rest H; simpl.
  - destruct rest; reflexivity.
  - simpl in H. apply andb_prop in H as [Hc Hds].
    rewrite Hc, (IH rest Hds). reflexivity.
Qed.

Lemma digits_zfill lo k n rest :
  (lo <= k)%nat -> digits lo k (zfill k n ++ rest) = Some (zfill k n, rest).
Proof.
  intros Hlo. unfold digits.
  rewrite <- (zfill_length k n) at 1.
  rewrite read_digits_prefix by apply zfill_all_digits.
  rewrite zfill_length.
  destruct (Nat.leb_spec lo k); [reflexivity | lia].
Qed.

Lemma int_of_digits_snoc ds c :
  int_of_digits (ds ++ [c]) = 10 * int_of_digits ds + (c - 48).
Proof. unfold int_of_digits. now rewrite List.fold_left_app. Qed.

Lemma int_of_digits_zfill k : forall n,
  int_of_digits (zfill k n) = n mod 10 ^ N.of_nat k.
Proof.
  induction k; intros n.
  - cbn. now rewrite N.mod_1_r.
  - rewrite zfill_succ, int_of_digits_snoc, IHk.
    rewrite Nat2N.inj_succ, N.pow_succ_r'.
    rewrite N.Div0.mod_mul_r. unfold digit_char.
    generalize (n mod 10), ((n / 10) mod 10 ^ N.of_nat k). intros a b. lia.
Qed.

Lemma int_of_digits_zfill_small k n :
  n < 10 ^ N.of_nat k -> int_of_digits (zfill k n) = n.
Proof. intros H. rewrite int_of_digits_zfill. now apply N.mod_small. Qed.

Lemma ljust6_zfill n : ljust6 (zfill 6 n) = zfill 6 n.
Proof.
  unfold ljust6. rewrite zfill_length. cbn [Nat.sub List.repeat].
  apply List.app_nil_r.
Qed.

Lemma days_in_month_le y m : days_in_month y m <= 31.
Proof.
  unfold days_in_month.
  repeat match goal with |- context [if ?b then _ else _] => destruct b end; lia.
Qed.

End DatetimeFacts.

Section DatetimeRoundTrip.

Import Datetime.

Lemma is_ascii_app a b : is_ascii (a ++ b) = is_ascii a && is_ascii b.
Proof. apply List.forallb_app. Qed.

Lemma is_ascii_zfill k n : is_ascii (zfill k n) = true.
Proof.
  apply List.forallb_forall. intros c Hc.
  pose proof (zfill_all_digits k n) as H.
  rewrite List.forallb_forall in H. specialize (H c Hc).
  unfold is_digit in H. apply andb_prop in H as [_ H].
  apply N.leb_le in H. apply N.leb_le. lia.
Qed.

Lemma isoformat_is_ascii d : is_ascii (isoformat d) = true.
Proof.
  unfold isoformat.
  destruct (microsecond d =? 0);
    repeat (rewrite is_ascii_app, is_ascii_zfill;
            change (is_ascii (?c :: ?r)) with ((c <=? 127) && is_ascii r));
    rewrite ?is_ascii_zfill; reflexivity.
Qed.

Lemma isoformat_has_colon d : existsb (N.eqb 58) (isoformat d) = true.
Proof.
  apply List.existsb_exists. exists 58. split; [|reflexivity].
  unfold isoformat.
  repeat (rewrite List.in_app_iff; cbn [List.In]).
  do 7 right. left. reflexivity.
Qed.

Lemma valid_bounds d :
  valid d = true ->
  year d < 10 ^ 4 /\ month d < 10 ^ 2 /\ day d < 10 ^ 2 /\ hour d < 10 ^ 2 /\
  minute d < 10 ^ 2 /\ second d < 10 ^ 2 /\ microsecond d < 10 ^ 6.
Proof.
  unfold valid. intros H.
  repeat (apply andb_prop in H as [H ?]).
  repeat match goal with
         | H : (_ <=? _) = true |- _ => apply N.leb_le in H
         end.
  pose proof (days_in_month_le (year d) (month d)).
  change (10 ^ 4) with 10000. change (10 ^ 2) with 100.
  change (10 ^ 6) with 1000000. lia.
Qed.

Lemma parse_isoformat d :
  valid d = true -> parse_datetime (isoformat d) = Parsed d.
Proof.
  intros Hvalid.
  destruct (valid_bounds d Hvalid) as (Hy & Hmo & Hd & Hh & Hmi & Hs & Hus).
  unfold parse_datetime.
  rewrite isoformat_is_ascii, isoformat_has_colon. cbn [negb orb].
  unfold isoformat.
  rewrite digits_zfill by lia. cbn [one_of existsb N.eqb Pos.eqb orb].
  rewrite digits_zfill by lia. cbn [one_of existsb N.eqb Pos.eqb orb].
  rewrite digits_zfill by lia. cbn [one_of existsb N.eqb Pos.eqb orb].
  rewrite digits_zfill by lia. cbn [one_of existsb N.eqb Pos.eqb orb].
  rewrite digits_zfill by lia.
  rewrite !int_of_digits_zfill_small by assumption.
  cbn [seconds_tail]. rewrite digits_zfill by lia.
  destruct (microsecond d =? 0) eqn:Hzero.
  - apply N.eqb_eq in Hzero.
    cbn [at_end]. rewrite int_of_digits_zfill_small by assumption.
    unfold build. destruct d.
    cbn [year month day hour minute second microsecond] in *.
    subst. now rewrite Hvalid.
  - rewrite <- (List.app_nil_r (zfill 6 (microsecond d))).
    rewrite digits_zfill by lia.
    cbn [digits read_digits Nat.leb List.length at_end].
    rewrite ljust6_zfill, !int_of_digits_zfill_small by assumption.
    unfold build. destruct d.
    cbn [year month day hour minute second microsecond] in *.
    now rewrite Hvalid.
Qed.

Lemma isoformat_is_iso8601 d : is_iso8601 (isoformat d) = true.
Proof.
  unfold isoformat, zfill.
  cbn [digits_rev List.rev List.app].
  destruct (microsecond d =? 0);
    cbn [is_iso8601 forallb List.length Nat.eqb N.eqb Pos.eqb andb];
    rewrite !is_digit_digit_char; reflexivity.
Qed.

End DatetimeRoundTrip.

(** ** Serialization *)

(** C6. [to_dict] of a Task and of a TaskExecution has one entry for each
    field and no other.  The type and the status are given by their tags;
    last_run, next_run, created_at, updated_at, start_time and end_time by
    their ISO 8601 text; an optional field that is absent by [None], and
    one that is present by its value.  The tags are those of the source,
    and the keys come in the order of the source.  The ISO 8601 text of a
    datetime is
    [YYYY-MM-DDTHH:MM:SS] in decimal digits, followed by [.ffffff] when
    the microsecond is not zero; the datetime is read back from it. *)
Theorem to_dict_renders_every_field :
  (forall t : Task.t,
      Permutation (dict_keys (Task.to_dict t)) Task.field_names /\
      dict_keys (Task.to_dict t)
      = [py "id"; py "name"; py "schedule"; py "type"; py "command";
         py "api_url"; py "api_method"; py "api_headers"; py "api_body";
         py "prompt"; py "tool"; py "method"; py "params"; py "description";
         py "enabled"; py "do_only_once"; py "last_run"; py "next_run";
         py "status"; py "created_at"; py "updated_at"; py "reminder_title";
         py "reminder_message"] /\
      dict_get (py "id") (Task.to_dict t) = Some (PStr (Task.id t)) /\
      dict_get (py "name") (Task.to_dict t) = Some (PStr (Task.name t)) /\
      dict_get (py "schedule") (Task.to_dict t) = Some (PStr (Task.schedule t)) /\
      dict_get (py "type") (Task.to_dict t)
      = Some (PStr (TaskType_value (Task.type t))) /\
      dict_get (py "status") (Task.to_dict t)
      = Some (PStr (TaskStatus_value (Task.status t))) /\
      dict_get (py "enabled") (Task.to_dict t) = Some (PBool (Task.enabled t)) /\
      dict_get (py "do_only_once") (Task.to_dict t)
      = Some (PBool (Task.do_only_once t)) /\
      dict_get (py "created_at") (Task.to_dict t)
      = Some (PStr (Datetime.isoformat (Task.created_at t))) /\
      dict_get (py "updated_at") (Task.to_dict t)
      = Some (PStr (Datetime.isoformat (Task.updated_at t))) /\
      dict_get (py "last_run") (Task.to_dict t)
      = Some match Task.last_run t with
             | Some d => PStr (Datetime.isoformat d)
             | None => PNone
             end /\
      dict_get (py "next_run") (Task.to_dict t)
      = Some match Task.next_run t with
             | Some d => PStr (Datetime.isoformat d)
             | None => PNone
             end /\
      dict_get (py "command") (Task.to_dict t)
      = Some match Task.command t with
             | Some s => PStr s
             | None => PNone
             end /\
      dict_get (py "api_url") (Task.to_dict t)
      = Some match Task.api_url t with
             | Some s => PStr s
             | None => PNone
             end /\
      dict_get (py "api_method") (Task.to_dict t)
      = Some match Task.api_method t with
             | Some s => PStr s
             | None => PNone
             end /\
      dict_get (py "api_headers") (Task.to_dict t)
      = Some match Task.api_headers t with
             | Some headers =>
                 PDict (List.map (fun kv => (fst kv, PStr (snd kv))) headers)
             | None => PNone
             end /\
      dict_get (py "api_body") (Task.to_dict t)
      = Some match Task.api_body t with
             | Some d => PDict d
             | None => PNone
             end /\
      dict_get (py "prompt") (Task.to_dict t)
      = Some match Task.prompt t with
             | Some s => PStr s
             | None => PNone
             end /\
      dict_get (py "tool") (Task.to_dict t)
      = Some match Task.tool t with
             | Some s => PStr s
             | None => PNone
             end /\
      dict_get (py "method") (Task.to_dict t)
      = Some match Task.method t with
             | Some s => PStr s
             | None => PNone
             end /\
      dict_get (py "params") (Task.to_dict t)
      = Some match Task.params t with
             | Some d => PDict d
             | None => PNone
             end /\
      dict_get (py "reminder_title") (Task.to_dict t)
      = Some match Task.reminder_title t with
             | Some s => PStr s
             | None => PNone
             end /\
      dict_get (py "reminder_message") (Task.to_dict t)
      = Some match Task.reminder_message t with
             | Some s => PStr s
             | None => PNone
             end /\
      dict_get (py "description") (Task.to_dict t)
      = Some match Task.description t with
             | Some s => PStr s
             | None => PNone
             end) /\
  (forall e : TaskExecution.t,
      dict_keys (TaskExecution.to_dict e) = TaskExecution.field_names /\
      dict_keys (TaskExecution.to_dict e)
      = [py "id"; py "task_id"; py "start_time"; py "end_time"; py "status";
         py "output"; py "error"] /\
      dict_get (py "id") (TaskExecution.to_dict e)
      = Some (PStr (TaskExecution.id e)) /\
      dict_get (py "task_id") (TaskExecution.to_dict e)
      = Some (PStr (TaskExecution.task_id e)) /\
      dict_get (py "status") (TaskExecution.to_dict e)
      = Some (PStr (TaskStatus_value (TaskExecution.status e))) /\
      dict_get (py "start_time") (TaskExecution.to_dict e)
      = Some (PStr (Datetime.isoformat (TaskExecution.start_time e))) /\
      dict_get (py "end_time") (TaskExecution.to_dict e)
      = Some match TaskExecution.end_time e with
             | Some d => PStr (Datetime.isoformat d)
             | None => PNone
             end /\
      dict_get (py "output") (TaskExecution.to_dict e)
      = Some match TaskExecution.output e with
             | Some s => PStr s
             | None => PNone
             end /\
      dict_get (py "error") (TaskExecution.to_dict e)
      = Some match TaskExecution.error e with
             | Some s => PStr s
             | None => PNone
             end) /\
  List.map TaskType_value [SHELL_COMMAND; API_CALL; AI; REMINDER; TOOL_CALL]
  = [py "shell_command"; py "api_call"; py "ai"; py "reminder"; py "tool_call"] /\
  List.map TaskStatus_value [PENDING; RUNNING; COMPLETED; FAILED; DISABLED]
  = [py "pending"; py "running"; py "completed"; py "failed"; py "disabled"] /\
  (forall d : datetime,
      Datetime.isoformat d
      = Datetime.zfill 4 (Datetime.year d) ++ py "-"
        ++ Datetime.zfill 2 (Datetime.month d) ++ py "-"
        ++ Datetime.zfill 2 (Datetime.day d) ++ py "T"
        ++ Datetime.zfill 2 (Datetime.hour d) ++ py ":"
        ++ Datetime.zfill 2 (Datetime.minute d) ++ py ":"
        ++ Datetime.zfill 2 (Datetime.second d)
        ++ (if Datetime.microsecond d =? 0 then []
            else py "." ++ Datetime.zfill 6 (Datetime.microsecond d))) /\
  (forall d : datetime, Datetime.is_iso8601 (Datetime.isoformat d) = true) /\
  (forall d : datetime,
      Datetime.valid d = true ->
      Datetime.parse_datetime (Datetime.isoformat d) = Datetime.Parsed d) /\
  Datetime.isoformat (Datetime.mk 2024 2 29 3 0 0 123)
  = py "2024-02-29T03:00:00.000123" /\
  Datetime.isoformat (Datetime.mk 987 12 31 23 59 59 0)
  = py "0987-12-31T23:59:59".
Proof.
  split; [|split; [|split; [|split; [|split; [|split; [|split; [|split]]]]]]].
  - intros t. split; [|repeat split].
    change (Permutation
              (List.firstn 13 Task.field_names
               ++ List.skipn 15 Task.field_names
               ++ List.firstn 2 (List.skipn 13 Task.field_names))
              (List.firstn 13 Task.field_names
               ++ List.firstn 2 (List.skipn 13 Task.field_names)
               ++ List.skipn 15 Task.field_names)).
    apply Permutation_app_head, Permutation_app_comm.
  - intros e. repeat split.
  - reflexivity.
  - reflexivity.
  - intros d. unfold Datetime.isoformat.
    destruct (Datetime.microsecond d =? 0);
      repeat (rewrite <- ?List.app_assoc; cbn [List.app py]); reflexivity.
  - exact isoformat_is_iso8601.
  - exact parse_isoformat.
  - reflexivity.
  - reflexivity.
Qed.

Lemma to_dict_renders_every_field_witness :
  Datetime.valid (Datetime.mk 2024 2 29 3 0 0 123) = true /\
  Datetime.parse_datetime (py "2024-02-29T03:00:00.000123")
  = Datetime.Parsed (Datetime.mk 2024 2 29 3 0 0 123) /\
  dict_get (py "last_run") (Task.to_dict Samples.webhook_task)
  = Some (PStr (py "2024-02-29T03:00:00.000123")) /\
  dict_get (py "command") (Task.to_dict Samples.webhook_task) = Some PNone /\
  dict_get (py "api_headers") (Task.to_dict Samples.webhook_task)
  = Some (PDict [(py "Accept", PStr (py "application/json"));
                 (py "X-Run", PStr (py "1"))]) /\
  dict_get (py "error") (TaskExecution.to_dict Samples.failed_execution)
  = Some (PStr (py "exit status 1")).
Proof.
  destruct to_dict_renders_every_field
    as (Htask & Hexecution & _ & _ & _ & _ & Hparse & Hrendered & _).
  split; [reflexivity|]. split.
  { rewrite <- Hrendered. apply Hparse. reflexivity. }
  destruct (Htask Samples.webhook_task)
    as (_ & _ & _ & _ & _ & _ & _ & _ & _ & _ & _ & Hlast & _ & Hcommand & _ & _
        & Hheaders & _).
  destruct (Hexecution Samples.failed_execution)
    as (_ & _ & _ & _ & _ & _ & _ & _ & Herror).
  split; [exact Hlast|]. split; [exact Hcommand|].
  split; [exact Hheaders | exact Herror].
Defined.

(** ** Round trip *)

Lemma TaskType_of_value_value ty : TaskType_of_value (TaskType_value ty) = Some ty.
Proof. destruct ty; reflexivity. Qed.

Lemma TaskStatus_of_value_value st :
  TaskStatus_of_value (TaskStatus_value st) = Some st.
Proof. destruct st; reflexivity. Qed.

Lemma dict_set_fresh {V : Type} k (v : V) acc :
  k ∉ dict_keys acc -> dict_set k v acc = acc ++ [(k, v)].
Proof.
  induction acc as [|[k' v'] acc IH]; simpl; intros Hk; [reflexivity|].
  apply not_elem_of_cons in Hk as [Hne Hk].
  rewrite pystr_eqb_neq by congruence. rewrite IH by assumption. reflexivity.
Qed.

Lemma dict_items_accepted {A : Type} (value : pyval -> outcome A)
    (embed : A -> pyval) :
  (forall a, value (embed a) = Accepted a) ->
  forall items acc,
    NoDup (dict_keys acc ++ dict_keys items) ->
    dict_items value (List.map (fun kv => (fst kv, embed (snd kv))) items) acc
    = Accepted (acc ++ items).
Proof.
  intros Hvalue. induction items as [|[k a] items IH]; intros acc Hnodup.
  - simpl. now rewrite List.app_nil_r.
  - simpl. rewrite Hvalue. simpl in Hnodup.
    apply NoDup_app in Hnodup as (Hacc & Hsep & Hitems).
    apply NoDup_cons in Hitems as [Hk Hitems].
    rewrite dict_set_fresh.
    + rewrite IH; [now rewrite <- List.app_assoc|].
      unfold dict_keys. rewrite List.map_app. simpl.
      apply NoDup_app. split; [|split].
      * apply NoDup_app. split; [exact Hacc|]. split; [|apply NoDup_singleton].
        intros x Hx Hx'. apply list_elem_of_singleton in Hx'. subst x.
        apply (Hsep k Hx). apply list_elem_of_here.
      * intros x Hx Hx'. apply elem_of_app in Hx as [Hx|Hx].
        -- apply (Hsep x Hx). now apply list_elem_of_further.
        -- apply list_elem_of_singleton in Hx. subst x. exact (Hk Hx').
      * exact Hitems.
    + intros Hin. apply (Hsep k Hin). apply list_elem_of_here.
Qed.

Lemma text_dict_round_trip o :
  Task.distinct_keys o ->
  optional (dict_validator Task.text) (of_text_dict o) = Accepted o.
Proof.
  destruct o as [d|]; [|reflexivity]. intros Hd. simpl.
  rewrite (dict_items_accepted Task.text PStr); [reflexivity| reflexivity |exact Hd].
Qed.

Lemma map_pair_eta {V : Type} (d : list (pystr * V)) :
  List.map (fun kv => (fst kv, snd kv)) d = d.
Proof. induction d as [|[k v] d IH]; simpl; congruence. Qed.

Lemma dict_round_trip o :
  Task.distinct_keys o ->
  optional (dict_validator Task.any) (of_dict o) = Accepted o.
Proof.
  destruct o as [d|]; [|reflexivity]. intros Hd. simpl.
  rewrite <- (map_pair_eta d) at 1.
  rewrite (dict_items_accepted Task.any (fun v => v)); [reflexivity| reflexivity |exact Hd].
Qed.

Lemma datetime_round_trip d :
  Datetime.valid d = true ->
  not_none datetime_validator (PStr (Datetime.isoformat d)) = Accepted d.
Proof.
  intros Hd. cbn [not_none datetime_validator]. unfold datetime_of_text.
  now rewrite parse_isoformat.
Qed.

Lemma timestamp_round_trip o :
  Task.exists_date o ->
  optional datetime_validator (of_timestamp o) = Accepted o.
Proof.
  destruct o as [d|]; [|reflexivity]. intros Hd.
  cbn [of_timestamp optional datetime_validator]. unfold datetime_of_text.
  now rewrite parse_isoformat.
Qed.

Lemma checked_text_round_trip o (cond : bool) f :
  Task.is_sanitized o -> (cond = true -> falsy o = false) ->
  bind (Task.opt_text (Task._ascii_only (of_text o)))
    (fun v => if cond && falsy v then Rejected f else Accepted v)
  = Accepted o.
Proof.
  destruct o as [s|]; cbn; intros Hs Hcond.
  - rewrite Hs. destruct cond; [rewrite Hcond by reflexivity|]; reflexivity.
  - destruct cond; [discriminate Hcond|]; reflexivity.
Qed.

Lemma checked_plain_round_trip o (cond : bool) f :
  (cond = true -> falsy o = false) ->
  bind (Task.opt_text (of_text o))
    (fun v => if cond && falsy v then Rejected f else Accepted v)
  = Accepted o.
Proof.
  destruct o as [s|]; cbn; intros Hcond.
  - destruct cond; [rewrite Hcond by reflexivity|]; reflexivity.
  - destruct cond; [discriminate Hcond|]; reflexivity.
Qed.

Lemma text_round_trip o :
  Task.is_sanitized o ->
  Task.opt_text (Task._ascii_only (of_text o)) = Accepted o.
Proof. destruct o as [s|]; cbn; [intros ->|]; reflexivity. Qed.

Lemma required_when t :
  Task.required_present t ->
  (is_type (Some (Task.type t)) SHELL_COMMAND = true -> falsy (Task.command t) = false) /\
  (is_type (Some (Task.type t)) API_CALL = true -> falsy (Task.api_url t) = false) /\
  (is_type (Some (Task.type t)) AI = true -> falsy (Task.prompt t) = false) /\
  (is_type (Some (Task.type t)) REMINDER = true ->
   falsy (Task.reminder_message t) = false) /\
  (is_type (Some (Task.type t)) TOOL_CALL = true -> falsy (Task.tool t) = false) /\
  (is_type (Some (Task.type t)) TOOL_CALL = true -> falsy (Task.method t) = false).
Proof.
  unfold Task.required_present.
  destruct (Task.type t); cbn; intros H; repeat split; intros E;
    first [discriminate E | tauto].
Qed.

Lemma values_type_to_dict t :
  Task.values_type (Task.to_dict t) = Some (Task.type t).
Proof.
  unfold Task.values_type.
  change (Task.validate_type (Task.to_dict t))
    with (not_none TaskType_validator (PStr (TaskType_value (Task.type t)))).
  cbn [not_none TaskType_validator].
  now rewrite TaskType_of_value_value.
Qed.

(** C9. A Task whose required fields are present and not empty and whose
    free-text fields are already sanitized is what the constructor returns
    on its own [to_dict]: every field is the same, and no default is
    drawn. *)
Theorem to_dict_round_trip (t : Task.t) (w : World) :
  Task.well_formed t -> Task.required_present t -> Task.sanitized t ->
  Task.init (Task.to_dict t) w = (Constructed t, w).
Proof.
  intros (Hlast & Hnext & Hcreated & Hupdated & Hhead & Hbody & Hparams) Hreq
         (Hname & Hcmd & Hprompt & Hdesc & Htitle & Hmsg).
  apply required_when in Hreq.
  destruct Hreq as (Rcmd & Rurl & Rprompt & Rmsg & Rtool & Rmethod).
  pose proof (values_type_to_dict t) as Hvt.
  assert (E_id : Task.validate_id (Task.to_dict t) w = (Accepted (Task.id t), w))
    by reflexivity.
  assert (E_name : Task.validate_name (Task.to_dict t) = Accepted (Task.name t)).
  { change (Task.validate_name (Task.to_dict t))
      with (Accepted (A := pystr) (sanitize_ascii (Task.name t))).
    now rewrite Hname. }
  assert (E_schedule :
            Task.validate_schedule (Task.to_dict t) = Accepted (Task.schedule t))
    by reflexivity.
  assert (E_type : Task.validate_type (Task.to_dict t) = Accepted (Task.type t)).
  { change (Task.validate_type (Task.to_dict t))
      with (not_none TaskType_validator (PStr (TaskType_value (Task.type t)))).
    cbn [not_none TaskType_validator]. now rewrite TaskType_of_value_value. }
  assert (E_command :
            Task.validate_command (Task.to_dict t) = Accepted (Task.command t)).
  { change (Task.validate_command (Task.to_dict t))
      with (bind (Task.opt_text (Task._ascii_only (of_text (Task.command t))))
              (fun v => Task._require_command v (Task.values_type (Task.to_dict t)))).
    rewrite Hvt. now apply checked_text_round_trip. }
  assert (E_api_url :
            Task.validate_api_url (Task.to_dict t) = Accepted (Task.api_url t)).
  { change (Task.validate_api_url (Task.to_dict t))
      with (bind (Task.opt_text (of_text (Task.api_url t)))
              (fun v => Task._require_api_url v (Task.values_type (Task.to_dict t)))).
    rewrite Hvt. now apply checked_plain_round_trip. }
  assert (E_api_method :
            Task.validate_api_method (Task.to_dict t)
            = Accepted (Task.api_method t)).
  { change (Task.validate_api_method (Task.to_dict t))
      with (Task.opt_text (of_text (Task.api_method t))).
    destruct (Task.api_method t); reflexivity. }
  assert (E_api_headers :
            Task.validate_api_headers (Task.to_dict t)
            = Accepted (Task.api_headers t))
    by (now apply text_dict_round_trip).
  assert (E_api_body :
            Task.validate_api_body (Task.to_dict t) = Accepted (Task.api_body t))
    by (now apply dict_round_trip).
  assert (E_prompt :
            Task.validate_prompt (Task.to_dict t) = Accepted (Task.prompt t)).
  { change (Task.validate_prompt (Task.to_dict t))
      with (bind (Task.opt_text (Task._ascii_only (of_text (Task.prompt t))))
              (fun v => Task._require_prompt v (Task.values_type (Task.to_dict t)))).
    rewrite Hvt. now apply checked_text_round_trip. }
  assert (E_tool : Task.validate_tool (Task.to_dict t) = Accepted (Task.tool t)).
  { change (Task.validate_tool (Task.to_dict t))
      with (bind (Task.opt_text (of_text (Task.tool t)))
              (fun v => Task._require_tool_fields v
                          (Task.values_type (Task.to_dict t)) "tool")).
    rewrite Hvt. now apply checked_plain_round_trip. }
  assert (E_method :
            Task.validate_method (Task.to_dict t) = Accepted (Task.method t)).
  { change (Task.validate_method (Task.to_dict t))
      with (bind (Task.opt_text (of_text (Task.method t)))
              (fun v => Task._require_tool_fields v
                          (Task.values_type (Task.to_dict t)) "method")).
    rewrite Hvt. now apply checked_plain_round_trip. }
  assert (E_params :
            Task.validate_params (Task.to_dict t) = Accepted (Task.params t))
    by (now apply dict_round_trip).
  assert (E_title :
            Task.validate_reminder_title (Task.to_dict t)
            = Accepted (Task.reminder_title t))
    by (now apply text_round_trip).
  assert (E_message :
            Task.validate_reminder_message (Task.to_dict t)
            = Accepted (Task.reminder_message t)).
  { change (Task.validate_reminder_message (Task.to_dict t))
      with (bind (Task.opt_text
                    (Task._ascii_only (of_text (Task.reminder_message t))))
              (fun v => Task._require_reminder_msg v
                          (Task.values_type (Task.to_dict t)))).
    rewrite Hvt. now apply checked_text_round_trip. }
  assert (E_description :
            Task.validate_description (Task.to_dict t)
            = Accepted (Task.description t))
    by (now apply text_round_trip).
  assert (E_enabled :
            Task.validate_enabled (Task.to_dict t) = Accepted (Task.enabled t))
    by reflexivity.
  assert (E_once :
            Task.validate_do_only_once (Task.to_dict t)
            = Accepted (Task.do_only_once t))
    by reflexivity.
  assert (E_last :
            Task.validate_last_run (Task.to_dict t) = Accepted (Task.last_run t))
    by (now apply timestamp_round_trip).
  assert (E_next :
            Task.validate_next_run (Task.to_dict t) = Accepted (Task.next_run t))
    by (now apply timestamp_round_trip).
  assert (E_status :
            Task.validate_status (Task.to_dict t) = Accepted (Task.status t)).
  { change (Task.validate_status (Task.to_dict t))
      with (not_none TaskStatus_validator
              (PStr (TaskStatus_value (Task.status t)))).
    cbn [not_none TaskStatus_validator]. now rewrite TaskStatus_of_value_value. }
  assert (E_created :
            Task.validate_created_at (Task.to_dict t) w
            = (Accepted (Task.created_at t), w)).
  { change (Task.validate_created_at (Task.to_dict t) w)
      with (not_none datetime_validator
              (PStr (Datetime.isoformat (Task.created_at t))), w).
    now rewrite datetime_round_trip. }
  assert (E_updated :
            Task.validate_updated_at (Task.to_dict t) w
            = (Accepted (Task.updated_at t), w)).
  { change (Task.validate_updated_at (Task.to_dict t) w)
      with (not_none datetime_validator
              (PStr (Datetime.isoformat (Task.updated_at t))), w).
    now rewrite datetime_round_trip. }
  unfold Task.init.
  rewrite E_id, E_created, E_updated, E_name, E_schedule, E_type, E_command,
    E_api_url, E_api_method, E_api_headers, E_api_body, E_prompt, E_tool,
    E_method, E_params, E_title, E_message, E_description, E_enabled, E_once,
    E_last, E_next, E_status.
  destruct t; reflexivity.
Qed.

Lemma to_dict_round_trip_witness :
  Task.well_formed Samples.webhook_task /\
  Task.required_present Samples.webhook_task /\
  Task.sanitized Samples.webhook_task /\
  Task.init (Task.to_dict Samples.webhook_task) Samples.world0
  = (Constructed Samples.webhook_task, Samples.world0).
Proof.
  assert (Hwf : Task.well_formed Samples.webhook_task).
  { repeat split; unfold Task.distinct_keys; cbn;
      apply (bool_decide_unpack _); vm_compute; exact I. }
  assert (Hreq : Task.required_present Samples.webhook_task) by reflexivity.
  assert (Hsan : Task.sanitized Samples.webhook_task) by (repeat split).
  split; [exact Hwf|]. split; [exact Hreq|]. split; [exact Hsan|].
  apply (to_dict_round_trip Samples.webhook_task Samples.world0 Hwf Hreq Hsan).
Defined.

(** ** The tool-call executor *)

Lemma pyval_nested_ind (P : pyval -> Prop) :
  P PNone -> (forall b, P (PBool b)) -> (forall z, P (PInt z)) ->
  (forall s, P (PStr s)) ->
  (forall l, Forall P l -> P (PList l)) ->
  (forall items, Forall (fun kv => P (snd kv)) items -> P (PDict items)) ->
  (forall d, P (PDatetime d)) -> (forall t, P (PTaskType t)) ->
  (forall s, P (PTaskStatus s)) -> (forall cls, P (PObject cls)) ->
  forall v, P v.
Proof.
  intros HNone HBool HInt HStr HList HDict HDatetime HType HStatus HObject.
  fix IH 1. intros [ | b | z | s | l | items | d | t | s | cls ].
  - exact HNone.
  - apply HBool.
  - apply HInt.
  - apply HStr.
  - apply HList. induction l as [|x l IHl]; constructor; [apply IH | exact IHl].
  - apply HDict.
    induction items as [|kv items IHitems]; constructor;
      [apply IH | exact IHitems].
  - apply HDatetime.
  - apply HType.
  - apply HStatus.
  - apply HObject.
Qed.

(** C2, as amended.  Whatever [json.dumps] does with the result:
    when the invocation returns a result that serializes, [execute] returns
    [{"status": "success", "data": <the serialization>}]; when the
    invocation, or the serialization of its result, raises a fault that
    derives from [Exception] and has a message, [execute] returns
    [{"status": "error", "error": <the message>}]; a fault that does not
    derive from [Exception] propagates out of [execute].  Nothing else
    leaves [execute] but what [str(exc)] raises in the handler, for a
    caught fault that has no message. *)
Theorem execute_reports_faults :
  forall (dumps : pyval -> pycall pystr) (client : ToolCall.MCPClient)
         (task : Task.t),
    (forall result data,
        ToolCall.invocation client task = Return result ->
        dumps result = Return data ->
        snd (ToolCall.execute_with dumps client task)
        = Return [(py "status", PStr (py "success")); (py "data", PStr data)]) /\
    (forall e text,
        ToolCall.raised_in_try dumps client task e ->
        derives_Exception e = true -> str_of e = Return text ->
        snd (ToolCall.execute_with dumps client task)
        = Return [(py "status", PStr (py "error")); (py "error", PStr text)]) /\
    (forall e,
        ToolCall.raised_in_try dumps client task e ->
        derives_Exception e = false ->
        snd (ToolCall.execute_with dumps client task) = Raise e) /\
    (forall e,
        snd (ToolCall.execute_with dumps client task) = Raise e ->
        (ToolCall.raised_in_try dumps client task e /\
         derives_Exception e = false) \/
        (exists caught,
            ToolCall.raised_in_try dumps client task caught /\
            derives_Exception caught = true /\ str_of caught = Raise e)) /\
    ToolCall.execute client task = ToolCall.execute_with Json.dumps client task.
Proof.
  intros dumps client task.
  unfold ToolCall.execute, ToolCall.execute_with, ToolCall.raised_in_try.
  split; [|split; [|split; [|split]]].
  - intros result data -> ->. reflexivity.
  - intros e text [-> | (result & -> & ->)] -> ->; reflexivity.
  - intros e [-> | (result & -> & ->)] ->; reflexivity.
  - intros e.
    destruct (ToolCall.invocation client task) as [result|e0] eqn:Hcall.
    + destruct (dumps result) as [data|e1] eqn:Hdumps; [discriminate|].
      destruct (derives_Exception e1) eqn:He1; cbn [snd].
      * destruct (str_of e1) eqn:Hstr; [discriminate|].
        intros H. injection H as <-. right.
        exists e1. split; [right; exists result; split; [reflexivity|assumption]|].
        split; assumption.
      * intros H. injection H as <-. left.
        split; [right; exists result; split; [reflexivity|assumption] | assumption].
    + destruct (derives_Exception e0) eqn:He0; cbn [snd].
      * destruct (str_of e0) eqn:Hstr; [discriminate|].
        intros H. injection H as <-. right.
        exists e0. split; [left; reflexivity|]. split; assumption.
      * intros H. injection H as <-. left.
        split; [left; reflexivity | assumption].
  - reflexivity.
Qed.

Lemma execute_reports_faults_witness :
  snd (ToolCall.execute Samples.fake_client Samples.ping_task)
  = Return [(py "status", PStr (py "success"));
            (py "data", PStr Samples.pong_text)] /\
  snd (ToolCall.execute Samples.unreachable_client Samples.ping_task)
  = Return [(py "status", PStr (py "error"));
            (py "error", PStr (py "connection refused"))] /\
  snd (ToolCall.execute Samples.set_client Samples.ping_task)
  = Return [(py "status", PStr (py "error"));
            (py "error", PStr (py "Object of type set is not JSON serializable"))] /\
  snd (ToolCall.execute Samples.interrupted_client Samples.ping_task)
  = Raise (Fault false []).
Proof.
  destruct (execute_reports_faults Json.dumps Samples.fake_client
              Samples.ping_task) as (Hok & _).
  destruct (execute_reports_faults Json.dumps Samples.unreachable_client
              Samples.ping_task) as (_ & Hcaught & _).
  destruct (execute_reports_faults Json.dumps Samples.set_client
              Samples.ping_task) as (_ & Hdumps & _).
  destruct (execute_reports_faults Json.dumps Samples.interrupted_client
              Samples.ping_task) as (_ & _ & Hescapes & _).
  split; [|split; [|split]].
  - apply (Hok (PDict [(py "pong", PBool true)]) Samples.pong_text); reflexivity.
  - apply (Hcaught (Fault true (py "connection refused")));
      [left; reflexivity | reflexivity | reflexivity].
  - apply (Hdumps (Json.not_serializable (py "set")));
      [right; exists (PObject (py "set")); split; reflexivity
      | reflexivity | reflexivity].
  - apply (Hescapes (Fault false [])); [left; reflexivity | reflexivity].
Defined.

(** C2, as stated, fails three times.  The invocation returns (a Python
    set) and raises nothing, and [execute] answers with the error shape,
    not with a success; the invocation raises a [KeyboardInterrupt], and
    [execute] raises it in its turn; the invocation raises a fault that
    derives from [Exception] and whose [__str__] raises, and [execute]
    raises what [__str__] raised. *)
Lemma unserializable_result_is_an_error :
  (ToolCall.invocation Samples.set_client Samples.ping_task
   = Return (PObject (py "set")) /\
   snd (ToolCall.execute Samples.set_client Samples.ping_task)
   = Return [(py "status", PStr (py "error"));
             (py "error", PStr (py "Object of type set is not JSON serializable"))]) /\
  (ToolCall.invocation Samples.interrupted_client Samples.ping_task
   = Raise (Fault false []) /\
   snd (ToolCall.execute Samples.interrupted_client Samples.ping_task)
   = Raise (Fault false [])) /\
  (ToolCall.invocation Samples.unprintable_client Samples.ping_task
   = Raise (Unprintable true (Fault true (py "no message"))) /\
   derives_Exception (Unprintable true (Fault true (py "no message"))) = true /\
   snd (ToolCall.execute Samples.unprintable_client Samples.ping_task)
   = Raise (Fault true (py "no message"))).
Proof. repeat split. Qed.

(** The handler's own [str(exc)] is outside any [try]: a fault whose
    [__str__] raises is logged, and what [__str__] raised leaves
    [execute]. *)
Example unprintable_fault_leaves_execute :
  ToolCall.execute Samples.unprintable_client Samples.ping_task
  = ([ ToolCall.LogInfo (py "Tool-call %s.%s")
         [PStr (py "meta-ads-mcp"); PStr (py "ping")];
       ToolCall.LogException (py "Tool-call failed")
         (Unprintable true (Fault true (py "no message"))) ],
     Raise (Fault true (py "no message"))).
Proof. reflexivity. Qed.

Example ping_task_constructed :
  constructed (Task.init Samples.ping_kwargs Samples.world0)
  = Some Samples.ping_task.
Proof. reflexivity. Qed.

(** C5. For a Task with tool="meta-ads-mcp", method="ping" and params={},
    when the client's invocation returns [{"pong": True}], [execute] returns
    the status "success" and the data [{"pong": true}], which contains
    "pong". *)
Theorem ping_yields_pong :
  forall (client : ToolCall.MCPClient) (task : Task.t),
    Task.tool task = Some (py "meta-ads-mcp") ->
    Task.method task = Some (py "ping") ->
    Task.params task = Some [] ->
    ToolCall.invoke client (Some (py "meta-ads-mcp")) (Some (py "ping")) []
    = Return (PDict [(py "pong", PBool true)]) ->
    snd (ToolCall.execute client task)
    = Return [(py "status", PStr (py "success"));
              (py "data", PStr Samples.pong_text)] /\
    PyStr.contains (py "pong") Samples.pong_text = true.
Proof.
  intros client task Htool Hmethod Hparams Hcall.
  split; [|reflexivity].
  unfold ToolCall.execute, ToolCall.execute_with, ToolCall.invocation.
  rewrite Htool, Hmethod, Hparams.
  cbn [ToolCall.or_empty]. rewrite Hcall. reflexivity.
Qed.

Lemma ping_yields_pong_witness :
  Samples.ping_task
  = Task.mk (py "task_0123456789ab") (py "Ping MCP") (py "@once") TOOL_CALL
      None None None None None None
      (Some (py "meta-ads-mcp")) (Some (py "ping")) (Some [])
      None None None true true None None PENDING
      (Datetime.mk 2024 1 1 0 0 0 0) (Datetime.mk 2024 1 1 0 0 1 0) /\
  snd (ToolCall.execute Samples.fake_client Samples.ping_task)
  = Return [(py "status", PStr (py "success"));
            (py "data", PStr Samples.pong_text)] /\
  PyStr.contains (py "pong") Samples.pong_text = true.
Proof.
  split; [reflexivity|].
  apply (ping_yields_pong Samples.fake_client Samples.ping_task); reflexivity.
Defined.

(** ** The tags of a status *)

(** No status has the tag "success". *)
Lemma no_status_is_success (st : TaskStatus) : TaskStatus_value st <> py "success".
Proof. destruct st; discriminate. Qed.

Lemma TaskStatus_validator_rejects_success :
  not_none TaskStatus_validator (PStr (py "success")) = Rejected EnumMemberError.
Proof. reflexivity. Qed.

Example echo_task_constructed :
  constructed (Task.init Samples.echo_kwargs Samples.world0)
  = Some Samples.echo_task.
Proof. reflexivity. Qed.

(** * Further properties of the code *)

(** ** [sanitize_ascii] on pieces of text *)

(** X1. Sanitizing a concatenation is concatenating the sanitized pieces:
    a run of non-ASCII characters that spans the seam is removed all the
    same, and the guard on the empty text changes nothing. *)
Theorem sanitize_ascii_app :
  forall a b : pystr,
    sanitize_ascii (a ++ b) = sanitize_ascii a ++ sanitize_ascii b.
Proof.
  intros a b. rewrite !sanitize_ascii_filter. apply List.filter_app.
Qed.

Lemma filter_length_le {A : Type} (f : A -> bool) (l : list A) :
  (List.length (List.filter f l) <= List.length l)%nat.
Proof.
  induction l as [|x l IH]; simpl; [lia|]. destruct (f x); simpl; lia.
Qed.

Lemma filter_nil_iff {A : Type} (f : A -> bool) (l : list A) :
  List.filter f l = [] <-> forallb (fun x => negb (f x)) l = true.
Proof.
  induction l as [|x l IH]; simpl; [tauto|].
  destruct (f x); simpl; [split; discriminate | exact IH].
Qed.

(** X2. [sanitize_ascii] never lengthens a text; it returns the text
    unchanged exactly when the text is ASCII, and the empty text exactly
    when no character of the text is ASCII. *)
Theorem sanitize_ascii_changes_exactly_non_ascii :
  forall s : pystr,
    (List.length (sanitize_ascii s) <= List.length s)%nat /\
    (sanitize_ascii s = s <-> is_ascii s = true) /\
    (sanitize_ascii s = [] <-> forallb non_ascii s = true).
Proof.
  intros s. split; [|split].
  - rewrite sanitize_ascii_filter. apply filter_length_le.
  - split.
    + intros H. rewrite <- H. apply sanitize_ascii_is_ascii.
    + apply sanitize_ascii_fixes_ascii.
  - rewrite sanitize_ascii_filter.
    assert (E : forallb (fun c => negb (c <=? 127)) s = forallb non_ascii s).
    { induction s as [|c s IH]; simpl; [reflexivity|]. rewrite IH.
      f_equal. unfold non_ascii.
      destruct (N.leb_spec c 127), (N.ltb_spec 127 c); simpl; try reflexivity; lia. }
    rewrite <- E. apply filter_nil_iff.
Qed.

Lemma sanitize_ascii_changes_exactly_non_ascii_witness :
  is_ascii (py "echo hi") = true /\
  sanitize_ascii (py "echo hi") = py "echo hi" /\
  forallb non_ascii [233; 8364] = true /\
  sanitize_ascii [233; 8364] = [].
Proof.
  split; [reflexivity|].
  split.
  { apply (proj2 (proj1 (proj2 (sanitize_ascii_changes_exactly_non_ascii
                                  (py "echo hi"))))). reflexivity. }
  split; [reflexivity|].
  apply (proj2 (proj2 (proj2 (sanitize_ascii_changes_exactly_non_ascii
                                [233; 8364])))). reflexivity.
Defined.

(** ** The enumerations *)

Lemma find_tag {A : Type} (tag : A -> pystr) (members : list A) v m :
  List.find (fun x => PyStr.eqb (tag x) v) members = Some m -> tag m = v.
Proof.
  intros H. apply List.find_some in H as [_ H]. now apply pystr_eqb_eq.
Qed.

(** X3. A member is found again from its tag, and only from its tag:
    [TaskType(v)] and [TaskStatus(v)] return the member whose tag is [v] and
    fail for any other text; so distinct members have distinct tags. *)
Theorem enum_tags_round_trip :
  (forall t : TaskType, TaskType_of_value (TaskType_value t) = Some t) /\
  (forall (v : pystr) (t : TaskType),
      TaskType_of_value v = Some t -> TaskType_value t = v) /\
  (forall s : TaskStatus, TaskStatus_of_value (TaskStatus_value s) = Some s) /\
  (forall (v : pystr) (s : TaskStatus),
      TaskStatus_of_value v = Some s -> TaskStatus_value s = v) /\
  (forall t t' : TaskType, TaskType_value t = TaskType_value t' -> t = t') /\
  (forall s s' : TaskStatus, TaskStatus_value s = TaskStatus_value s' -> s = s').
Proof.
  split; [intros t; destruct t; reflexivity|].
  split; [intros v t; apply find_tag|].
  split; [intros s; destruct s; reflexivity|].
  split; [intros v s; apply find_tag|].
  split.
  - intros t t' H.
    assert (E : TaskType_of_value (TaskType_value t) = Some t')
      by (rewrite H; destruct t'; reflexivity).
    rewrite TaskType_of_value_value in E. congruence.
  - intros s s' H.
    assert (E : TaskStatus_of_value (TaskStatus_value s) = Some s')
      by (rewrite H; destruct s'; reflexivity).
    rewrite TaskStatus_of_value_value in E. congruence.
Qed.

Lemma enum_tags_round_trip_witness :
  TaskType_of_value (py "tool_call") = Some TOOL_CALL /\
  TaskType_value TOOL_CALL = py "tool_call" /\
  TaskStatus_of_value (py "completed") = Some COMPLETED /\
  TaskStatus_value COMPLETED = py "completed".
Proof.
  destruct enum_tags_round_trip as (_ & Htype & _ & Hstatus & _ & _).
  split; [reflexivity|].
  split; [apply Htype; reflexivity|].
  split; [reflexivity|].
  apply Hstatus; reflexivity.
Defined.

(** ** What the validators of [Task] let through *)

Lemma values_type_accepted kwargs ty :
  Task.validate_type kwargs = Accepted ty -> Task.values_type kwargs = Some ty.
Proof. intros H. unfold Task.values_type. now rewrite H. Qed.

Lemma is_type_same ty : is_type (Some ty) ty = true.
Proof. destruct ty; reflexivity. Qed.

(** A field with a requirement: what its outcome says of the argument. *)
Lemma required_field_accepted name (pre : pyval -> pyval) kwargs vt ty f c :
  field name (Some None)
    (fun v => bind (Task.opt_text (pre v))
                (fun v => if is_type vt ty && falsy v
                          then Rejected f else Accepted v)) kwargs
  = Accepted c ->
  (dict_get (py name) kwargs = None -> c = None) /\
  (vt = Some ty -> dict_get (py name) kwargs <> None -> falsy c = false).
Proof.
  unfold field. destruct (dict_get (py name) kwargs) as [v|].
  - intros H. split; [discriminate|]. intros -> _.
    rewrite is_type_same in H.
    destruct (Task.opt_text (pre v)) as [o| |]; cbn in H; try discriminate.
    destruct (falsy o) eqn:Ho; [discriminate|]. congruence.
  - intros H. split; [congruence|]. intros _ Hne. now elim Hne.
Qed.

(** X4. In a Task that was constructed, a field that its type requires
    (command, api_url, prompt, reminder_message, tool, method) is not empty
    if its keyword was passed; and whatever the type, each of these fields
    is [None] if its keyword was not passed. *)
Theorem required_field_empty_only_if_not_passed :
  forall (kwargs : pydict) (w : World) (t : Task.t) (w' : World),
    Task.init kwargs w = (Constructed t, w') ->
    ((dict_get (py "command") kwargs = None -> Task.command t = None) /\
     (Task.type t = SHELL_COMMAND -> dict_get (py "command") kwargs <> None ->
      falsy (Task.command t) = false)) /\
    ((dict_get (py "api_url") kwargs = None -> Task.api_url t = None) /\
     (Task.type t = API_CALL -> dict_get (py "api_url") kwargs <> None ->
      falsy (Task.api_url t) = false)) /\
    ((dict_get (py "prompt") kwargs = None -> Task.prompt t = None) /\
     (Task.type t = AI -> dict_get (py "prompt") kwargs <> None ->
      falsy (Task.prompt t) = false)) /\
    ((dict_get (py "reminder_message") kwargs = None ->
      Task.reminder_message t = None) /\
     (Task.type t = REMINDER -> dict_get (py "reminder_message") kwargs <> None ->
      falsy (Task.reminder_message t) = false)) /\
    ((dict_get (py "tool") kwargs = None -> Task.tool t = None) /\
     (Task.type t = TOOL_CALL -> dict_get (py "tool") kwargs <> None ->
      falsy (Task.tool t) = false)) /\
    ((dict_get (py "method") kwargs = None -> Task.method t = None) /\
     (Task.type t = TOOL_CALL -> dict_get (py "method") kwargs <> None ->
      falsy (Task.method t) = false)).
Proof.
  intros kwargs w t w' H.
  apply Task_init_inv in H.
  destruct H as (_ & _ & _ & Htype & Hcmd & Hurl & _ & _ & _ & Hprompt & Htool
                 & Hmethod & _ & _ & Hmsg & _).
  apply values_type_accepted in Htype.
  pose proof (required_field_accepted "command" Task._ascii_only kwargs
                (Task.values_type kwargs) SHELL_COMMAND _ _ Hcmd) as [A1 B1].
  pose proof (required_field_accepted "api_url" (fun v => v) kwargs
                (Task.values_type kwargs) API_CALL _ _ Hurl) as [A2 B2].
  pose proof (required_field_accepted "prompt" Task._ascii_only kwargs
                (Task.values_type kwargs) AI _ _ Hprompt) as [A3 B3].
  pose proof (required_field_accepted "reminder_message" Task._ascii_only kwargs
                (Task.values_type kwargs) REMINDER _ _ Hmsg) as [A4 B4].
  pose proof (required_field_accepted "tool" (fun v => v) kwargs
                (Task.values_type kwargs) TOOL_CALL _ _ Htool) as [A5 B5].
  pose proof (required_field_accepted "method" (fun v => v) kwargs
                (Task.values_type kwargs) TOOL_CALL _ _ Hmethod) as [A6 B6].
  rewrite Htype in B1, B2, B3, B4, B5, B6.
  repeat apply conj; try assumption; intros Hty; rewrite Hty in *; auto.
Qed.

Lemma required_field_empty_only_if_not_passed_witness :
  exists t w',
    Task.init Samples.accented_api_kwargs Samples.world0 = (Constructed t, w') /\
    Task.type t = API_CALL /\
    dict_get (py "api_url") Samples.accented_api_kwargs <> None /\
    falsy (Task.api_url t) = false /\
    dict_get (py "command") Samples.accented_api_kwargs = None /\
    Task.command t = None.
Proof.
  destruct (Task.init Samples.accented_api_kwargs Samples.world0)
    as [c w'] eqn:H.
  assert (exists t, c = Constructed t /\ Task.type t = API_CALL) as (t & -> & Hty).
  { vm_compute in H. injection H as <- _. eexists; split; reflexivity. }
  exists t, w'. split; [reflexivity|].
  destruct (required_field_empty_only_if_not_passed _ _ _ _ H)
    as ((Hcmd & _) & (_ & Hurl) & _).
  assert (Hpassed : dict_get (py "api_url") Samples.accented_api_kwargs <> None)
    by discriminate.
  split; [exact Hty|]. split; [exact Hpassed|].
  split; [exact (Hurl Hty Hpassed)|].
  split; [reflexivity|]. apply Hcmd. reflexivity.
Defined.

(** X5. The requirement is checked on the sanitized text.  In a constructed
    Task whose type requires command, prompt or reminder_message, text
    passed for that field holds at least one ASCII character: text made of
    non-ASCII characters alone is sanitized to the empty text and refused as
    missing. *)
Theorem required_text_has_an_ascii_character :
  forall (kwargs : pydict) (w : World) (t : Task.t) (w' : World) (s : pystr),
    Task.init kwargs w = (Constructed t, w') ->
    (Task.type t = SHELL_COMMAND ->
     dict_get (py "command") kwargs = Some (PStr s) -> sanitize_ascii s <> []) /\
    (Task.type t = AI ->
     dict_get (py "prompt") kwargs = Some (PStr s) -> sanitize_ascii s <> []) /\
    (Task.type t = REMINDER ->
     dict_get (py "reminder_message") kwargs = Some (PStr s) ->
     sanitize_ascii s <> []).
Proof.
  intros kwargs w t w' s H.
  apply Task_init_inv in H.
  destruct H as (_ & _ & _ & Htype & Hcmd & _ & _ & _ & _ & Hprompt & _ & _ & _
                 & _ & Hmsg & _).
  apply values_type_accepted in Htype.
  pose proof (required_field_accepted "command" Task._ascii_only kwargs
                (Task.values_type kwargs) SHELL_COMMAND _ _ Hcmd) as [_ B1].
  pose proof (required_field_accepted "prompt" Task._ascii_only kwargs
                (Task.values_type kwargs) AI _ _ Hprompt) as [_ B2].
  pose proof (required_field_accepted "reminder_message" Task._ascii_only kwargs
                (Task.values_type kwargs) REMINDER _ _ Hmsg) as [_ B3].
  rewrite Htype in B1, B2, B3.
  repeat apply conj; intros Hty Hs Hempty; rewrite Hty in *.
  - rewrite (checked_text_field_stored kwargs "command" s Hs _ _ _
               (fun v r => require_returns_argument _ _ v r) Hcmd) in B1.
    rewrite Hempty in B1. specialize (B1 eq_refl). rewrite Hs in B1.
    discriminate B1. discriminate.
  - rewrite (checked_text_field_stored kwargs "prompt" s Hs _ _ _
               (fun v r => require_returns_argument _ _ v r) Hprompt) in B2.
    rewrite Hempty in B2. specialize (B2 eq_refl). rewrite Hs in B2.
    discriminate B2. discriminate.
  - rewrite (checked_text_field_stored kwargs "reminder_message" s Hs _ _ _
               (fun v r => require_returns_argument _ _ v r) Hmsg) in B3.
    rewrite Hempty in B3. specialize (B3 eq_refl). rewrite Hs in B3.
    discriminate B3. discriminate.
Qed.

Lemma required_text_has_an_ascii_character_witness :
  exists t w',
    Task.init Samples.echo_kwargs Samples.world0 = (Constructed t, w') /\
    Task.type t = SHELL_COMMAND /\
    dict_get (py "command") Samples.echo_kwargs = Some (PStr (py "echo hi")) /\
    sanitize_ascii (py "echo hi") <> [].
Proof.
  destruct (Task.init Samples.echo_kwargs Samples.world0) as [c w'] eqn:H.
  assert (exists t, c = Constructed t /\ Task.type t = SHELL_COMMAND)
    as (t & -> & Hty).
  { vm_compute in H. injection H as <- _. eexists; split; reflexivity. }
  exists t, w'. split; [reflexivity|].
  split; [exact Hty|]. split; [reflexivity|].
  destruct (required_text_has_an_ascii_character _ _ _ _ (py "echo hi") H)
    as (Hcmd & _).
  apply Hcmd; [exact Hty | reflexivity].
Defined.

(** ** Fields that are not sanitized *)

Lemma plain_field_stored kwargs name s default x :
  dict_get (py name) kwargs = Some (PStr s) ->
  field name default Task.opt_text kwargs = Accepted x -> x = Some s.
Proof.
  intros Hs. unfold field. rewrite Hs.
  cbn [Task.opt_text optional str_validator bind]. congruence.
Qed.

Lemma checked_plain_field_stored kwargs name s default
    (post : option pystr -> outcome (option pystr)) x :
  dict_get (py name) kwargs = Some (PStr s) ->
  (forall v r, post v = Accepted r -> r = v) ->
  field name default (fun v => bind (Task.opt_text v) post) kwargs = Accepted x ->
  x = Some s.
Proof.
  intros Hs Hpost. unfold field. rewrite Hs.
  cbn [Task.opt_text optional str_validator bind].
  intros H. now apply Hpost in H.
Qed.

(** X6. Only six fields are sanitized.  Text passed for the id, schedule,
    api_url, api_method, tool or method of a Task is stored exactly as it is
    passed, non-ASCII characters included. *)
Theorem other_text_is_stored_as_passed :
  forall (kwargs : pydict) (w : World) (t : Task.t) (w' : World) (s : pystr),
    Task.init kwargs w = (Constructed t, w') ->
    (dict_get (py "id") kwargs = Some (PStr s) -> Task.id t = s) /\
    (dict_get (py "schedule") kwargs = Some (PStr s) -> Task.schedule t = s) /\
    (dict_get (py "api_url") kwargs = Some (PStr s) -> Task.api_url t = Some s) /\
    (dict_get (py "api_method") kwargs = Some (PStr s) ->
     Task.api_method t = Some s) /\
    (dict_get (py "tool") kwargs = Some (PStr s) -> Task.tool t = Some s) /\
    (dict_get (py "method") kwargs = Some (PStr s) -> Task.method t = Some s).
Proof.
  intros kwargs w t w' s H.
  apply Task_init_inv in H.
  destruct H as ((w1 & w2 & Hid & _) & _ & Hsched & _ & _ & Hurl & Hmethod0 & _
                 & _ & _ & Htool & Hmethod & _).
  repeat apply conj; intros Hs.
  - unfold Task.validate_id, field_factory in Hid. rewrite Hs in Hid.
    cbn [Task.text not_none str_validator] in Hid. congruence.
  - unfold Task.validate_schedule, field in Hsched. rewrite Hs in Hsched.
    cbn [Task.text not_none str_validator] in Hsched. congruence.
  - eapply checked_plain_field_stored; [exact Hs| |exact Hurl].
    intros v r. apply require_returns_argument.
  - eapply plain_field_stored; [exact Hs|exact Hmethod0].
  - eapply checked_plain_field_stored; [exact Hs| |exact Htool].
    intros v r. apply require_returns_argument.
  - eapply checked_plain_field_stored; [exact Hs| |exact Hmethod].
    intros v r. apply require_returns_argument.
Qed.

Lemma other_text_is_stored_as_passed_witness :
  exists t w',
    Task.init Samples.accented_api_kwargs Samples.world0 = (Constructed t, w') /\
    is_ascii Samples.accented = false /\
    Task.id t = Samples.accented /\ Task.schedule t = Samples.accented /\
    Task.api_url t = Some Samples.accented /\
    Task.api_method t = Some Samples.accented /\
    Task.tool t = Some Samples.accented /\ Task.method t = Some Samples.accented.
Proof.
  destruct (Task.init Samples.accented_api_kwargs Samples.world0)
    as [c w'] eqn:H.
  assert (exists t, c = Constructed t) as (t & ->).
  { vm_compute in H. injection H as <- _. eexists; reflexivity. }
  exists t, w'. split; [reflexivity|]. split; [reflexivity|].
  destruct (other_text_is_stored_as_passed _ _ _ _ Samples.accented H)
    as (H1 & H2 & H3 & H4 & H5 & H6).
  repeat apply conj;
    [apply H1 | apply H2 | apply H3 | apply H4 | apply H5 | apply H6];
    reflexivity.
Defined.

(** X7. A type or a status passed as text is stored as the member that has
    this text for tag, in a Task and in a TaskExecution; text that is the tag
    of no member never gives an object. *)
Theorem enum_text_is_stored_as_its_member :
  (forall (kwargs : pydict) (w : World) (t : Task.t) (w' : World) (s : pystr),
      Task.init kwargs w = (Constructed t, w') ->
      (dict_get (py "type") kwargs = Some (PStr s) ->
       TaskType_value (Task.type t) = s) /\
      (dict_get (py "status") kwargs = Some (PStr s) ->
       TaskStatus_value (Task.status t) = s)) /\
  (forall (kwargs : pydict) (w : World) (e : TaskExecution.t) (w' : World)
          (s : pystr),
      TaskExecution.init kwargs w = (Constructed e, w') ->
      dict_get (py "status") kwargs = Some (PStr s) ->
      TaskStatus_value (TaskExecution.status e) = s).
Proof.
  split.
  - intros kwargs w t w' s H.
    apply Task_init_inv in H.
    destruct H as (_ & _ & _ & Htype & H).
    do 16 destruct H as (_ & H).
    split; intros Hs.
    + unfold Task.validate_type, field in Htype. rewrite Hs in Htype.
      cbn [not_none TaskType_validator] in Htype.
      destruct (TaskType_of_value s) as [ty|] eqn:Hty; [|discriminate].
      injection Htype as <-. exact (find_tag _ _ _ _ Hty).
    + unfold Task.validate_status, field in H. rewrite Hs in H.
      cbn [not_none TaskStatus_validator] in H.
      destruct (TaskStatus_of_value s) as [st|] eqn:Hst; [|discriminate].
      injection H as <-. exact (find_tag _ _ _ _ Hst).
  - intros kwargs w e w' s H Hs.
    apply TaskExecution_init_inv in H.
    destruct H as (_ & _ & _ & H & _).
    unfold TaskExecution.validate_status, field in H. rewrite Hs in H.
    cbn [not_none TaskStatus_validator] in H.
    destruct (TaskStatus_of_value s) as [st|] eqn:Hst; [|discriminate].
    injection H as <-. exact (find_tag _ _ _ _ Hst).
Qed.

Lemma enum_text_is_stored_as_its_member_witness :
  exists t w',
    Task.init Samples.accented_api_kwargs Samples.world0 = (Constructed t, w') /\
    TaskType_value (Task.type t) = py "api_call" /\
    TaskStatus_value (Task.status t) = py "failed".
Proof.
  destruct (Task.init Samples.accented_api_kwargs Samples.world0)
    as [c w'] eqn:H.
  assert (exists t, c = Constructed t) as (t & ->).
  { vm_compute in H. injection H as <- _. eexists; reflexivity. }
  exists t, w'. split; [reflexivity|].
  destruct enum_text_is_stored_as_its_member as (HT & _).
  split.
  - apply (proj1 (HT _ _ _ _ (py "api_call") H)). reflexivity.
  - apply (proj2 (HT _ _ _ _ (py "failed") H)). reflexivity.
Defined.

(** ** Defaults and the outside world *)

(** X8. What a construction takes from the outside world.  It asks for
    one uuid when the id is not passed, and for none when it is; the id is
    then ["task_"] and the first 12 characters of that uuid.  It reads the
    clock once for each of created_at and updated_at that is not passed,
    created_at first: a created_at that is not passed is the first reading,
    and an updated_at that is not passed is the reading after it, or the
    first reading when created_at was passed.  Nothing else of the world
    changes. *)
Theorem defaults_are_drawn_in_order :
  forall (kwargs : pydict) (w : World) (t : Task.t) (w' : World),
    Task.init kwargs w = (Constructed t, w') ->
    uuid_hex w' = uuid_hex w /\ clock w' = clock w /\
    uuid_calls w'
    = (uuid_calls w
       + match dict_get (py "id") kwargs with None => 1 | Some _ => 0 end)%nat /\
    clock_calls w'
    = (clock_calls w
       + match dict_get (py "created_at") kwargs with None => 1 | Some _ => 0 end
       + match dict_get (py "updated_at") kwargs with None => 1 | Some _ => 0 end)%nat /\
    (dict_get (py "id") kwargs = None ->
     Task.id t = py "task_" ++ List.firstn 12 (uuid_hex w (uuid_calls w))) /\
    (dict_get (py "created_at") kwargs = None ->
     Task.created_at t = clock w (clock_calls w)) /\
    (dict_get (py "updated_at") kwargs = None ->
     Task.updated_at t
     = clock w (clock_calls w
                + match dict_get (py "created_at") kwargs with
                  | None => 1
                  | Some _ => 0
                  end)%nat).
Proof.
  intros kwargs w t w' H.
  apply Task_init_inv in H.
  destruct H as ((w1 & w2 & Hid & Hcreated & Hupdated) & _).
  unfold Task.validate_id, Task.validate_created_at, Task.validate_updated_at,
    field_factory, Task.default_id, uuid4_hex, utcnow in *.
  destruct (dict_get (py "id") kwargs);
    destruct (dict_get (py "created_at") kwargs);
    destruct (dict_get (py "updated_at") kwargs);
    injection Hid as Hid <-; injection Hcreated as Hcreated <-;
    injection Hupdated as Hupdated <-;
    cbn [uuid_hex clock uuid_calls clock_calls];
    rewrite ?Nat.add_0_r, ?Nat.add_1_r;
    repeat apply conj; intros; try discriminate; try reflexivity;
    try (symmetry; assumption).
Qed.

Lemma defaults_are_drawn_in_order_witness :
  (exists t w',
      Task.init Samples.echo_kwargs Samples.world0 = (Constructed t, w') /\
      Task.id t = py "task_0123456789ab" /\
      Task.created_at t = Datetime.mk 2024 1 1 0 0 0 0 /\
      Task.updated_at t = Datetime.mk 2024 1 1 0 0 1 0 /\
      uuid_calls w' = 1%nat /\ clock_calls w' = 2%nat) /\
  (exists t w',
      Task.init ((py "created_at", PDatetime (Datetime.mk 2020 5 17 8 30 0 0))
                 :: Samples.echo_kwargs) Samples.world0
      = (Constructed t, w') /\
      Task.updated_at t = Datetime.mk 2024 1 1 0 0 0 0 /\
      clock_calls w' = 1%nat).
Proof.
  split.
  - destruct (Task.init Samples.echo_kwargs Samples.world0) as [c w'] eqn:H.
    assert (exists t, c = Constructed t) as (t & ->).
    { vm_compute in H. injection H as <- _. eexists; reflexivity. }
    exists t, w'. split; [reflexivity|].
    destruct (defaults_are_drawn_in_order _ _ _ _ H)
      as (_ & _ & Huuid & Hclock & Hid & Hc & Hu).
    repeat apply conj;
      [exact (Hid eq_refl) | exact (Hc eq_refl) | exact (Hu eq_refl)
      | exact Huuid | exact Hclock].
  - destruct (Task.init ((py "created_at",
                          PDatetime (Datetime.mk 2020 5 17 8 30 0 0))
                         :: Samples.echo_kwargs) Samples.world0)
      as [c w'] eqn:H.
    assert (exists t, c = Constructed t) as (t & ->).
    { vm_compute in H. injection H as <- _. eexists; reflexivity. }
    exists t, w'. split; [reflexivity|].
    destruct (defaults_are_drawn_in_order _ _ _ _ H)
      as (_ & _ & _ & Hclock & _ & _ & Hu).
    split; [exact (Hu eq_refl) | exact Hclock].
Defined.

(** ** Keywords that are missing, unknown or out of order *)

(** Closes a goal about a construction whose validation has reached a field
    that was not accepted. *)
Ltac refused :=
  cbv beta iota zeta;
  match goal with
  | |- context [if ?b then _ else _] => destruct b
  end;
  (split;
   [ intros ?; discriminate
   | intros errs Herrs; try discriminate; injection Herrs as <-;
     cbn [errors_of List.app];
     repeat first [ left; reflexivity | right | apply List.in_or_app; right ] ]).

(** X9. name and schedule have no default, nor has the task_id of a
    TaskExecution: when the keyword is not passed there is no object, and the
    ValidationError lists "field required" under the name of the field. *)
Theorem missing_required_keyword_is_refused :
  (forall (kwargs : pydict) (w : World),
      dict_get (py "name") kwargs = None ->
      (forall t, fst (Task.init kwargs w) <> Constructed t) /\
      (forall errs, fst (Task.init kwargs w) = ValidationError errs ->
                    List.In (py "name", MissingError) errs)) /\
  (forall (kwargs : pydict) (w : World),
      dict_get (py "schedule") kwargs = None ->
      (forall t, fst (Task.init kwargs w) <> Constructed t) /\
      (forall errs, fst (Task.init kwargs w) = ValidationError errs ->
                    List.In (py "schedule", MissingError) errs)) /\
  (forall (kwargs : pydict) (w : World),
      dict_get (py "task_id") kwargs = None ->
      (forall e, fst (TaskExecution.init kwargs w) <> Constructed e) /\
      (forall errs, fst (TaskExecution.init kwargs w) = ValidationError errs ->
                    List.In (py "task_id", MissingError) errs)).
Proof.
  split; [|split]; intros kwargs w Hmissing.
  - unfold Task.init.
    destruct (Task.validate_id kwargs w) as [r_id w1].
    destruct (Task.validate_created_at kwargs w1) as [r_created w2].
    destruct (Task.validate_updated_at kwargs w2) as [r_updated w3].
    cbn [fst].
    assert (E : Task.validate_name kwargs = Rejected MissingError)
      by (unfold Task.validate_name, field; now rewrite Hmissing).
    rewrite E. unfold Task.assemble. destruct r_id; refused.
  - unfold Task.init.
    destruct (Task.validate_id kwargs w) as [r_id w1].
    destruct (Task.validate_created_at kwargs w1) as [r_created w2].
    destruct (Task.validate_updated_at kwargs w2) as [r_updated w3].
    cbn [fst].
    assert (E : Task.validate_schedule kwargs = Rejected MissingError)
      by (unfold Task.validate_schedule, field; now rewrite Hmissing).
    rewrite E. unfold Task.assemble.
    destruct r_id; [destruct (Task.validate_name kwargs)| |]; refused.
  - unfold TaskExecution.init.
    destruct (TaskExecution.validate_id kwargs w) as [r_id w1].
    destruct (TaskExecution.validate_start_time kwargs w1) as [r_start w2].
    cbn [fst].
    assert (E : TaskExecution.validate_task_id kwargs = Rejected MissingError)
      by (unfold TaskExecution.validate_task_id, field; now rewrite Hmissing).
    rewrite E. unfold TaskExecution.assemble. destruct r_id; refused.
Qed.

Lemma missing_required_keyword_is_refused_witness :
  dict_get (py "name") [(py "schedule", PStr Samples.every_minute)] = None /\
  fst (Task.init [(py "schedule", PStr Samples.every_minute)] Samples.world0)
  = ValidationError [(py "name", MissingError)] /\
  List.In (py "name", MissingError) [(py "name", MissingError)].
Proof.
  split; [reflexivity|]. split; [reflexivity|].
  destruct missing_required_keyword_is_refused as (Hname & _ & _).
  apply (proj2 (Hname [(py "schedule", PStr Samples.every_minute)]
                  Samples.world0 eq_refl)).
  reflexivity.
Defined.

Lemma keyword_declared (names : list pystr) (k : pystr) :
  existsb (PyStr.eqb k) names = true -> List.In k names.
Proof.
  intros H. apply List.existsb_exists in H as (x & Hx & E).
  apply pystr_eqb_eq in E. now subst.
Qed.

Ltac same_keyword Hk key :=
  rewrite (Hk key) by (apply keyword_declared; reflexivity).

(** X10. A construction reads the keywords that the class declares and
    nothing else: two sets of keyword arguments that agree on the declared
    fields give the same result, in the same world.  So a keyword that is
    not declared (a misspelt one) is ignored without an error, and the order
    of the keywords does not matter. *)
Theorem construction_reads_declared_keywords_only :
  (forall (k1 k2 : pydict) (w : World),
      (forall f, List.In f Task.field_names -> dict_get f k1 = dict_get f k2) ->
      Task.init k1 w = Task.init k2 w) /\
  (forall (k1 k2 : pydict) (w : World),
      (forall f, List.In f TaskExecution.field_names ->
                 dict_get f k1 = dict_get f k2) ->
      TaskExecution.init k1 w = TaskExecution.init k2 w).
Proof.
  split; intros k1 k2 w Hk.
  - unfold Task.init, Task.validate_id, Task.validate_name,
      Task.validate_schedule, Task.validate_command, Task.validate_api_url,
      Task.validate_api_method, Task.validate_api_headers,
      Task.validate_api_body, Task.validate_prompt, Task.validate_tool,
      Task.validate_method, Task.validate_params, Task.validate_reminder_title,
      Task.validate_reminder_message, Task.validate_description,
      Task.validate_enabled, Task.validate_do_only_once, Task.validate_last_run,
      Task.validate_next_run, Task.validate_status, Task.validate_created_at,
      Task.validate_updated_at, Task.values_type, Task.validate_type, field,
      field_factory.
    same_keyword Hk (py "id"). same_keyword Hk (py "name"). same_keyword Hk (py "schedule").
    same_keyword Hk (py "type"). same_keyword Hk (py "command"). same_keyword Hk (py "api_url").
    same_keyword Hk (py "api_method"). same_keyword Hk (py "api_headers").
    same_keyword Hk (py "api_body"). same_keyword Hk (py "prompt"). same_keyword Hk (py "tool").
    same_keyword Hk (py "method"). same_keyword Hk (py "params").
    same_keyword Hk (py "reminder_title"). same_keyword Hk (py "reminder_message").
    same_keyword Hk (py "description"). same_keyword Hk (py "enabled").
    same_keyword Hk (py "do_only_once"). same_keyword Hk (py "last_run").
    same_keyword Hk (py "next_run"). same_keyword Hk (py "status").
    same_keyword Hk (py "created_at"). same_keyword Hk (py "updated_at").
    reflexivity.
  - unfold TaskExecution.init, TaskExecution.validate_id,
      TaskExecution.validate_task_id, TaskExecution.validate_start_time,
      TaskExecution.validate_end_time, TaskExecution.validate_status,
      TaskExecution.validate_output, TaskExecution.validate_error, field,
      field_factory.
    same_keyword Hk (py "id"). same_keyword Hk (py "task_id").
    same_keyword Hk (py "start_time"). same_keyword Hk (py "end_time").
    same_keyword Hk (py "status"). same_keyword Hk (py "output"). same_keyword Hk (py "error").
    reflexivity.
Qed.

Lemma construction_reads_declared_keywords_only_witness :
  dict_get (py "cmd") Samples.echo_kwargs_shuffled = Some (PStr (py "rm -rf /")) /\
  Task.init Samples.echo_kwargs Samples.world0
  = Task.init Samples.echo_kwargs_shuffled Samples.world0.
Proof.
  split; [reflexivity|].
  apply (proj1 construction_reads_declared_keywords_only).
  intros f Hf. cbn in Hf.
  repeat (destruct Hf as [<- | Hf]; [reflexivity|]). contradiction.
Defined.

(** ** Round trip of a TaskExecution *)

Lemma output_round_trip o :
  Task.is_sanitized o ->
  optional str_validator (TaskExecution._ascii_output (of_text o)) = Accepted o.
Proof. destruct o as [s|]; cbn; [intros ->|]; reflexivity. Qed.

(** X11. A TaskExecution whose output and error are already sanitized is
    what the constructor returns on its own [to_dict]: every field is the
    same, and neither a uuid nor the clock is read. *)
Theorem execution_to_dict_round_trip :
  forall (e : TaskExecution.t) (w : World),
    execution_dates_exist e ->
    Task.is_sanitized (TaskExecution.output e) ->
    Task.is_sanitized (TaskExecution.error e) ->
    TaskExecution.init (TaskExecution.to_dict e) w = (Constructed e, w).
Proof.
  intros e w (Hstart & Hend) Hout Herr.
  assert (E_id : TaskExecution.validate_id (TaskExecution.to_dict e) w
                 = (Accepted (TaskExecution.id e), w)) by reflexivity.
  assert (E_task : TaskExecution.validate_task_id (TaskExecution.to_dict e)
                   = Accepted (TaskExecution.task_id e)) by reflexivity.
  assert (E_start : TaskExecution.validate_start_time (TaskExecution.to_dict e) w
                    = (Accepted (TaskExecution.start_time e), w)).
  { change (TaskExecution.validate_start_time (TaskExecution.to_dict e) w)
      with (not_none datetime_validator
              (PStr (Datetime.isoformat (TaskExecution.start_time e))), w).
    now rewrite datetime_round_trip. }
  assert (E_end : TaskExecution.validate_end_time (TaskExecution.to_dict e)
                  = Accepted (TaskExecution.end_time e))
    by (now apply timestamp_round_trip).
  assert (E_status : TaskExecution.validate_status (TaskExecution.to_dict e)
                     = Accepted (TaskExecution.status e)).
  { change (TaskExecution.validate_status (TaskExecution.to_dict e))
      with (not_none TaskStatus_validator
              (PStr (TaskStatus_value (TaskExecution.status e)))).
    cbn [not_none TaskStatus_validator]. now rewrite TaskStatus_of_value_value. }
  assert (E_out : TaskExecution.validate_output (TaskExecution.to_dict e)
                  = Accepted (TaskExecution.output e))
    by (now apply output_round_trip).
  assert (E_err : TaskExecution.validate_error (TaskExecution.to_dict e)
                  = Accepted (TaskExecution.error e))
    by (now apply output_round_trip).
  unfold TaskExecution.init.
  rewrite E_id, E_start, E_task, E_end, E_status, E_out, E_err.
  destruct e; reflexivity.
Qed.

Lemma execution_to_dict_round_trip_witness :
  execution_dates_exist Samples.failed_execution /\
  Task.is_sanitized (TaskExecution.output Samples.failed_execution) /\
  Task.is_sanitized (TaskExecution.error Samples.failed_execution) /\
  TaskExecution.init (TaskExecution.to_dict Samples.failed_execution)
    Samples.world0
  = (Constructed Samples.failed_execution, Samples.world0).
Proof.
  assert (Hd : execution_dates_exist Samples.failed_execution)
    by (split; reflexivity).
  assert (Ho : Task.is_sanitized (TaskExecution.output Samples.failed_execution))
    by exact I.
  assert (He : Task.is_sanitized (TaskExecution.error Samples.failed_execution))
    by reflexivity.
  split; [exact Hd|]. split; [exact Ho|]. split; [exact He|].
  apply (execution_to_dict_round_trip Samples.failed_execution Samples.world0
           Hd Ho He).
Defined.

(** ** [to_dict] loses nothing *)

Lemma isoformat_inj d1 d2 :
  Datetime.valid d1 = true -> Datetime.valid d2 = true ->
  Datetime.isoformat d1 = Datetime.isoformat d2 -> d1 = d2.
Proof.
  intros H1 H2 E.
  pose proof (parse_isoformat d1 H1) as P1.
  rewrite E, (parse_isoformat d2 H2) in P1. congruence.
Qed.

Lemma of_timestamp_inj o1 o2 :
  Task.exists_date o1 -> Task.exists_date o2 ->
  of_timestamp o1 = of_timestamp o2 -> o1 = o2.
Proof.
  destruct o1 as [d1|], o2 as [d2|]; cbn [Task.exists_date of_timestamp];
    intros H1 H2 E; try discriminate; [|reflexivity].
  f_equal. apply isoformat_inj; try assumption.
  exact (f_equal (fun v => match v with PStr s => s | _ => [] end) E).
Qed.

Lemma of_text_inj o1 o2 : of_text o1 = of_text o2 -> o1 = o2.
Proof. destruct o1, o2; cbn; congruence. Qed.

Lemma of_dict_inj o1 o2 : of_dict o1 = of_dict o2 -> o1 = o2.
Proof. destruct o1, o2; cbn; congruence. Qed.

Lemma of_text_dict_inj o1 o2 : of_text_dict o1 = of_text_dict o2 -> o1 = o2.
Proof.
  destruct o1 as [d1|], o2 as [d2|]; cbn; intros E; try discriminate;
    [|reflexivity].
  injection E as E. f_equal.
  revert d2 E. induction d1 as [|[k v] d1 IH]; intros [|[k' v'] d2] E;
    try discriminate; [reflexivity|].
  cbn in E. injection E as -> -> E. f_equal. now apply IH.
Qed.

Lemma TaskType_value_inj t t' : TaskType_value t = TaskType_value t' -> t = t'.
Proof.
  intros H. pose proof (TaskType_of_value_value t) as E.
  rewrite H, TaskType_of_value_value in E. congruence.
Qed.

Lemma TaskStatus_value_inj s s' : TaskStatus_value s = TaskStatus_value s' -> s = s'.
Proof.
  intros H. pose proof (TaskStatus_of_value_value s) as E.
  rewrite H, TaskStatus_of_value_value in E. congruence.
Qed.

(** X12. [to_dict] tells objects apart: two Tasks with the same
    dictionary are the same in every field, and so are two
    TaskExecutions. *)
Theorem to_dict_is_injective :
  (forall t1 t2 : Task.t,
      task_dates_exist t1 -> task_dates_exist t2 ->
      Task.to_dict t1 = Task.to_dict t2 -> t1 = t2) /\
  (forall e1 e2 : TaskExecution.t,
      execution_dates_exist e1 -> execution_dates_exist e2 ->
      TaskExecution.to_dict e1 = TaskExecution.to_dict e2 -> e1 = e2).
Proof.
  split.
  - intros t1 t2 (L1 & N1 & C1 & U1) (L2 & N2 & C2 & U2) E.
    destruct t1, t2. unfold Task.to_dict in E.
    cbn [Task.id Task.name Task.schedule Task.type Task.command Task.api_url
         Task.api_method Task.api_headers Task.api_body Task.prompt Task.tool
         Task.method Task.params Task.reminder_title Task.reminder_message
         Task.description Task.enabled Task.do_only_once Task.last_run
         Task.next_run Task.status Task.created_at Task.updated_at] in *.
    remember (Datetime.isoformat created_at) as c1 eqn:Hc1.
    remember (Datetime.isoformat created_at0) as c2 eqn:Hc2.
    remember (Datetime.isoformat updated_at) as u1 eqn:Hu1.
    remember (Datetime.isoformat updated_at0) as u2 eqn:Hu2.
    injection E as E1 E2 E3 E4 E5 E6 E7 E8 E9 E10 E11 E12 E13 E14 E15 E16 E17
                    E18 E19 E20 E21 E22 E23.
    rewrite Hc1, Hc2 in E20. rewrite Hu1, Hu2 in E21. clear Hc1 Hc2 Hu1 Hu2.
    apply TaskType_value_inj in E4. apply TaskStatus_value_inj in E19.
    apply of_text_inj in E5, E6, E7, E10, E11, E12, E14, E22, E23.
    apply of_text_dict_inj in E8. apply of_dict_inj in E9, E13.
    apply of_timestamp_inj in E17, E18; try assumption.
    apply isoformat_inj in E20, E21; try assumption.
    subst. reflexivity.
  - intros e1 e2 (S1 & N1) (S2 & N2) E.
    destruct e1, e2. unfold TaskExecution.to_dict in E.
    cbn [TaskExecution.id TaskExecution.task_id TaskExecution.start_time
         TaskExecution.end_time TaskExecution.status TaskExecution.output
         TaskExecution.error] in *.
    remember (Datetime.isoformat start_time) as s1 eqn:Hs1.
    remember (Datetime.isoformat start_time0) as s2 eqn:Hs2.
    injection E as E1 E2 E3 E4 E5 E6 E7.
    rewrite Hs1, Hs2 in E3. clear Hs1 Hs2.
    apply isoformat_inj in E3; try assumption.
    apply of_timestamp_inj in E4; try assumption.
    apply TaskStatus_value_inj in E5. apply of_text_inj in E6, E7.
    subst. reflexivity.
Qed.

Lemma to_dict_is_injective_witness :
  task_dates_exist Samples.webhook_task /\
  Task.to_dict Samples.webhook_task = Task.to_dict Samples.webhook_task /\
  execution_dates_exist Samples.failed_execution /\
  Samples.webhook_task = Samples.webhook_task /\
  Samples.failed_execution = Samples.failed_execution.
Proof.
  assert (Ht : task_dates_exist Samples.webhook_task) by (repeat split).
  assert (He : execution_dates_exist Samples.failed_execution) by (repeat split).
  split; [exact Ht|]. split; [reflexivity|]. split; [exact He|].
  split.
  - apply (proj1 to_dict_is_injective _ _ Ht Ht). reflexivity.
  - apply (proj2 to_dict_is_injective _ _ He He). reflexivity.
Defined.

(** ** [to_dict] and JSON *)

Lemma all_returned_returns {A : Type} (rs : list (pycall A)) :
  Forall (fun r => exists a, r = Return a) rs ->
  exists l, Json.all_returned rs = Return l.
Proof.
  induction 1 as [|r rs [a ->] _ [l IH]]; simpl.
  - now exists [].
  - rewrite IH. now exists (a :: l).
Qed.

Lemma dumps_dict_returns (items : pydict) :
  Forall (fun kv => exists text, Json.dumps (snd kv) = Return text) items ->
  exists text, Json.dumps (PDict items) = Return text.
Proof.
  intros H. cbn [Json.dumps].
  match goal with
  | |- context [Json.all_returned ?rs] =>
      destruct (all_returned_returns rs) as [l ->]
  end; [|eexists; reflexivity].
  apply List.Forall_map.
  eapply List.Forall_impl; [|exact H].
  intros kv [text ->]. eexists; reflexivity.
Qed.

Lemma all_returned_first_raise {A : Type} (before : list (pycall A)) e after :
  Forall (fun r => exists a, r = Return a) before ->
  Json.all_returned (before ++ Raise e :: after) = Raise e.
Proof.
  induction 1 as [|r rs [a ->] _ IH]; simpl; [reflexivity|].
  now rewrite IH.
Qed.

(** The first entry whose value does not serialize decides. *)
Lemma dumps_dict_raises (before : pydict) k v (after : pydict) e :
  Forall (fun kv => exists text, Json.dumps (snd kv) = Return text) before ->
  Json.dumps v = Raise e ->
  Json.dumps (PDict (before ++ (k, v) :: after)) = Raise e.
Proof.
  intros H Hv. cbn [Json.dumps].
  rewrite List.map_app. cbn [List.map snd fst]. rewrite Hv.
  rewrite all_returned_first_raise; [reflexivity|].
  apply List.Forall_map.
  eapply List.Forall_impl; [|exact H].
  intros kv [text ->]. eexists; reflexivity.
Qed.

Lemma dumps_of_text o : exists text, Json.dumps (of_text o) = Return text.
Proof. destruct o; eexists; reflexivity. Qed.

Lemma dumps_of_timestamp o : exists text, Json.dumps (of_timestamp o) = Return text.
Proof. destruct o; eexists; reflexivity. Qed.

Lemma dumps_bool b : exists text, Json.dumps (PBool b) = Return text.
Proof. destruct b; eexists; reflexivity. Qed.

Lemma dumps_text s : exists text, Json.dumps (PStr s) = Return text.
Proof. eexists; reflexivity. Qed.

Lemma dumps_of_text_dict o : exists text, Json.dumps (of_text_dict o) = Return text.
Proof.
  destruct o as [d|]; [|eexists; reflexivity].
  apply dumps_dict_returns. apply List.Forall_map.
  apply List.Forall_forall. intros kv _. apply dumps_text.
Qed.

Ltac serializes :=
  first [ apply dumps_text | apply dumps_bool | apply dumps_of_text
        | apply dumps_of_timestamp | apply dumps_of_text_dict | eassumption ].

(** X13. The dictionary of a TaskExecution always serializes with
    [json.dumps].  The dictionary of a Task serializes when its api_body and
    its params do; when one of the two does not (a value that JSON cannot
    hold), [json.dumps] of the dictionary raises that very fault. *)
Theorem to_dict_serializes_unless_payload_does_not :
  (forall e : TaskExecution.t,
      exists text, Json.dumps (PDict (TaskExecution.to_dict e)) = Return text) /\
  (forall (t : Task.t) (body params : pystr),
      Json.dumps (of_dict (Task.api_body t)) = Return body ->
      Json.dumps (of_dict (Task.params t)) = Return params ->
      exists text, Json.dumps (PDict (Task.to_dict t)) = Return text) /\
  (forall (t : Task.t) (fault : raised),
      Json.dumps (of_dict (Task.api_body t)) = Raise fault ->
      Json.dumps (PDict (Task.to_dict t)) = Raise fault) /\
  (forall (t : Task.t) (body : pystr) (fault : raised),
      Json.dumps (of_dict (Task.api_body t)) = Return body ->
      Json.dumps (of_dict (Task.params t)) = Raise fault ->
      Json.dumps (PDict (Task.to_dict t)) = Raise fault).
Proof.
  split; [|split; [|split]].
  - intros e. apply dumps_dict_returns.
    unfold TaskExecution.to_dict. repeat constructor; cbn [snd]; serializes.
  - intros t body params Hbody Hparams. apply dumps_dict_returns.
    unfold Task.to_dict.
    assert (exists text, Json.dumps (of_dict (Task.api_body t)) = Return text)
      by eauto.
    assert (exists text, Json.dumps (of_dict (Task.params t)) = Return text)
      by eauto.
    repeat constructor; cbn [snd]; serializes.
  - intros t fault Hbody.
    change (Task.to_dict t)
      with (List.firstn 8 (Task.to_dict t)
            ++ (py "api_body", of_dict (Task.api_body t))
            :: List.skipn 9 (Task.to_dict t)).
    apply dumps_dict_raises; [|exact Hbody].
    cbn [List.firstn Task.to_dict]. repeat constructor; cbn [snd]; serializes.
  - intros t body fault Hbody Hparams.
    change (Task.to_dict t)
      with (List.firstn 12 (Task.to_dict t)
            ++ (py "params", of_dict (Task.params t))
            :: List.skipn 13 (Task.to_dict t)).
    apply dumps_dict_raises; [|exact Hparams].
    assert (exists text, Json.dumps (of_dict (Task.api_body t)) = Return text)
      by eauto.
    cbn [List.firstn Task.to_dict]. repeat constructor; cbn [snd]; serializes.
Qed.

Lemma to_dict_serializes_unless_payload_does_not_witness :
  (exists text,
      Json.dumps (PDict (Task.to_dict Samples.webhook_task)) = Return text) /\
  Json.dumps (of_dict (Task.api_body Samples.dated_task)) = Return (py "null") /\
  Json.dumps (of_dict (Task.params Samples.dated_task))
  = Raise (Json.not_serializable (py "datetime")) /\
  Json.dumps (PDict (Task.to_dict Samples.dated_task))
  = Raise (Json.not_serializable (py "datetime")).
Proof.
  destruct to_dict_serializes_unless_payload_does_not as (_ & Hok & _ & Hparams).
  split.
  - destruct (Json.dumps (of_dict (Task.api_body Samples.webhook_task)))
      as [body|] eqn:Hb; [|discriminate Hb].
    destruct (Json.dumps (of_dict (Task.params Samples.webhook_task)))
      as [params|] eqn:Hp; [|discriminate Hp].
    exact (Hok Samples.webhook_task body params Hb Hp).
  - split; [reflexivity|]. split; [reflexivity|].
    apply (Hparams Samples.dated_task (py "null")); reflexivity.
Defined.

(** ** What the executor hands back *)

Section GraphicText.

Lemma is_graphic_app a b : is_graphic (a ++ b) = is_graphic a && is_graphic b.
Proof. apply List.forallb_app. Qed.

Lemma is_graphic_concat (parts : list pystr) :
  Forall (fun p => is_graphic p = true) parts ->
  is_graphic (List.concat parts) = true.
Proof.
  induction 1 as [|p parts Hp _ IH]; simpl; [reflexivity|].
  now rewrite is_graphic_app, Hp, IH.
Qed.

Lemma is_graphic_printable s : is_graphic s = true -> is_printable s = true.
Proof.
  unfold is_graphic, is_printable. rewrite !List.forallb_forall.
  intros H c Hc. unfold printable_char. now rewrite (H c Hc).
Qed.

Lemma is_graphic_ascii s : is_graphic s = true -> is_ascii s = true.
Proof.
  unfold is_graphic, is_ascii. rewrite !List.forallb_forall.
  intros H c Hc. specialize (H c Hc).
  apply andb_prop in H as [_ H]. apply N.leb_le in H. apply N.leb_le. lia.
Qed.

Lemma uint_text_graphic u : is_graphic (uint_text u) = true.
Proof. induction u; simpl; auto. Qed.

Lemma int_text_graphic z : is_graphic (int_text z) = true.
Proof.
  destruct z; simpl; [reflexivity | apply uint_text_graphic|].
  apply uint_text_graphic.
Qed.

Lemma hex_digit_graphic n : n < 16 -> is_graphic [Json.hex_digit n] = true.
Proof.
  intros H. unfold is_graphic, Json.hex_digit. cbn [forallb].
  destruct (N.ltb_spec n 10); rewrite andb_true_r;
    apply andb_true_intro; split; apply N.leb_le; lia.
Qed.

Lemma u_escape_graphic n : is_graphic (Json.u_escape n) = true.
Proof.
  unfold Json.u_escape.
  change [92; 117; Json.hex_digit ((n / 4096) mod 16);
          Json.hex_digit ((n / 256) mod 16); Json.hex_digit ((n / 16) mod 16);
          Json.hex_digit (n mod 16)]
    with ([92; 117] ++ [Json.hex_digit ((n / 4096) mod 16)]
          ++ [Json.hex_digit ((n / 256) mod 16)]
          ++ [Json.hex_digit ((n / 16) mod 16)] ++ [Json.hex_digit (n mod 16)]).
  rewrite !is_graphic_app, !hex_digit_graphic
    by (apply N.mod_upper_bound; discriminate).
  reflexivity.
Qed.

Lemma escape_char_graphic c : is_graphic (Json.escape_char c) = true.
Proof.
  unfold Json.escape_char.
  repeat match goal with
         | |- context [if ?b then _ else _] =>
             let E := fresh "E" in destruct b eqn:E; try reflexivity
         end.
  - unfold is_graphic. cbn [forallb]. now rewrite E6.
  - apply u_escape_graphic.
  - rewrite is_graphic_app, !u_escape_graphic. reflexivity.
Qed.

Lemma encode_str_graphic s : is_graphic (Json.encode_str s) = true.
Proof.
  unfold Json.encode_str. rewrite !is_graphic_app.
  rewrite is_graphic_concat; [reflexivity|].
  apply List.Forall_map, List.Forall_forall. intros c _.
  apply escape_char_graphic.
Qed.

Lemma join_graphic sep parts :
  is_graphic sep = true -> Forall (fun p => is_graphic p = true) parts ->
  is_graphic (Json.join sep parts) = true.
Proof.
  intros Hsep. induction 1 as [|p parts Hp Hparts IH]; [reflexivity|].
  cbn [Json.join]. destruct parts as [|q parts]; [exact Hp|].
  now rewrite !is_graphic_app, Hp, Hsep, IH.
Qed.

Lemma all_returned_Forall {A : Type} (P : A -> Prop) (rs : list (pycall A)) l :
  Forall (fun r => forall a, r = Return a -> P a) rs ->
  Json.all_returned rs = Return l -> Forall P l.
Proof.
  intros H. revert l. induction H as [|r rs Hr _ IH]; simpl; intros l E.
  - injection E as <-. constructor.
  - destruct r as [a|]; [|discriminate].
    destruct (Json.all_returned rs) as [l'|]; [|discriminate].
    injection E as <-. constructor; [now apply Hr | now apply IH].
Qed.

(** Under [ensure_ascii], which is the default, [json.dumps] writes
    graphic ASCII and spaces only. *)
Lemma dumps_graphic v : forall text,
  Json.dumps v = Return text -> is_graphic text = true.
Proof.
  induction v as [ | [|] | z | s | l IHl | items IHitems | d | t | s | cls ]
    using pyval_nested_ind; intros text H; cbn [Json.dumps] in H;
    try discriminate H; try (injection H as <-);
    try reflexivity; try apply int_text_graphic; try apply encode_str_graphic.
  - destruct (Json.all_returned (List.map Json.dumps l)) as [parts|] eqn:Hall;
      [|discriminate]. injection H as <-.
    change (is_graphic (py "[" ++ Json.join (py ", ") parts ++ py "]") = true).
    rewrite !is_graphic_app, join_graphic; [reflexivity|reflexivity|].
    eapply all_returned_Forall; [|exact Hall].
    apply List.Forall_map. eapply List.Forall_impl; [|exact IHl].
    intros x Hx a. apply Hx.
  - match type of H with
    | match Json.all_returned ?rs with _ => _ end = _ =>
        destruct (Json.all_returned rs) as [parts|] eqn:Hall
    end; [|discriminate]. injection H as <-.
    change (is_graphic (py "{" ++ Json.join (py ", ") parts ++ py "}") = true).
    rewrite !is_graphic_app, join_graphic; [reflexivity|reflexivity|].
    eapply all_returned_Forall; [|exact Hall].
    apply List.Forall_map. eapply List.Forall_impl; [|exact IHitems].
    intros kv Hkv a Ha. cbn beta in Ha.
    destruct (Json.dumps (snd kv)) as [t|] eqn:Hd; [|discriminate].
    injection Ha as <-.
    change (is_graphic (Json.encode_str (fst kv) ++ py ": " ++ t) = true).
    now rewrite !is_graphic_app, encode_str_graphic, (Hkv t Hd).
Qed.

End GraphicText.

(** The three ways through [execute]: the [try] succeeds; the handler
    catches a fault, logs it and asks for its message; a fault that does
    not derive from [Exception] passes the handler by. *)
Lemma execute_with_cases dumps client task :
  let started := [ToolCall.LogInfo (py "Tool-call %s.%s")
                    [of_text (Task.tool task); of_text (Task.method task)]] in
  (exists result data,
      ToolCall.invocation client task = Return result /\
      dumps result = Return data /\
      ToolCall.execute_with dumps client task
      = (started,
         Return [(py "status", PStr (py "success")); (py "data", PStr data)])) \/
  (exists fault,
      ToolCall.raised_in_try dumps client task fault /\
      derives_Exception fault = true /\
      ToolCall.execute_with dumps client task
      = (started ++ [ToolCall.LogException (py "Tool-call failed") fault],
         match str_of fault with
         | Return text =>
             Return [(py "status", PStr (py "error")); (py "error", PStr text)]
         | Raise e => Raise e
         end)) \/
  (exists fault,
      ToolCall.raised_in_try dumps client task fault /\
      derives_Exception fault = false /\
      ToolCall.execute_with dumps client task = (started, Raise fault)).
Proof.
  intros started. unfold ToolCall.execute_with, ToolCall.raised_in_try.
  fold started.
  destruct (ToolCall.invocation client task) as [result|e] eqn:Hcall.
  - destruct (dumps result) as [data|e] eqn:Hdumps.
    + left. exists result, data. repeat split. exact Hdumps.
    + right. destruct (derives_Exception e) eqn:He; [left|right];
        exists e; (split; [right; exists result; split; [reflexivity|exact Hdumps]|]);
        (split; [exact He | reflexivity]).
  - right. destruct (derives_Exception e) eqn:He; [left|right];
      exists e; (split; [left; reflexivity|]); (split; [exact He | reflexivity]).
Qed.

(** X14. The data of a success is graphic ASCII: whatever the tool
    returns, [json.dumps] escapes every character outside U+0020..U+007E.
    So the data is printable, and [sanitize_ascii] leaves it as it is when
    it is stored as the output of a TaskExecution. *)
Theorem success_data_is_graphic_ascii :
  forall (client : ToolCall.MCPClient) (task : Task.t) (result : pydict)
         (data : pystr),
    snd (ToolCall.execute client task) = Return result ->
    dict_get (py "data") result = Some (PStr data) ->
    is_graphic data = true /\ is_printable data = true /\
    sanitize_ascii data = data.
Proof.
  intros client task result data Hrun Hdata.
  assert (G : is_graphic data = true).
  { unfold ToolCall.execute in Hrun.
    destruct (execute_with_cases Json.dumps client task)
      as [(r & text & _ & Hdumps & E) | [(e & _ & _ & E) | (e & _ & _ & E)]];
      rewrite E in Hrun; cbn [snd] in Hrun.
    - injection Hrun as <-. cbn in Hdata. injection Hdata as <-.
      exact (dumps_graphic r text Hdumps).
    - destruct (str_of e); [|discriminate].
      injection Hrun as <-. discriminate Hdata.
    - discriminate Hrun. }
  split; [exact G|]. split; [now apply is_graphic_printable|].
  apply sanitize_ascii_fixes_ascii. now apply is_graphic_ascii.
Qed.

Lemma success_data_is_graphic_ascii_witness :
  snd (ToolCall.execute Samples.fake_client Samples.ping_task)
  = Return [(py "status", PStr (py "success"));
            (py "data", PStr Samples.pong_text)] /\
  is_graphic Samples.pong_text = true /\ is_printable Samples.pong_text = true /\
  sanitize_ascii Samples.pong_text = Samples.pong_text.
Proof.
  split; [reflexivity|].
  apply (success_data_is_graphic_ascii Samples.fake_client Samples.ping_task
           [(py "status", PStr (py "success"));
            (py "data", PStr Samples.pong_text)]); reflexivity.
Defined.

(** X15. What [execute] returns has one of two shapes, never a mix: the
    keys status and data with the status "success" and no error key, or the
    keys status and error with the status "error" and no data key. *)
Theorem execute_result_has_one_of_two_shapes :
  forall (client : ToolCall.MCPClient) (task : Task.t) (result : pydict),
    snd (ToolCall.execute client task) = Return result ->
    (dict_keys result = [py "status"; py "data"] /\
     dict_get (py "status") result = Some (PStr (py "success")) /\
     dict_get (py "error") result = None) \/
    (dict_keys result = [py "status"; py "error"] /\
     dict_get (py "status") result = Some (PStr (py "error")) /\
     dict_get (py "data") result = None).
Proof.
  intros client task result. unfold ToolCall.execute.
  destruct (execute_with_cases Json.dumps client task)
    as [(r & text & _ & _ & E) | [(e & _ & _ & E) | (e & _ & _ & E)]];
    rewrite E; cbn [snd]; intros H.
  - injection H as <-. left. repeat split.
  - destruct (str_of e); [|discriminate].
    injection H as <-. right. repeat split.
  - discriminate H.
Qed.

Lemma execute_result_has_one_of_two_shapes_witness :
  snd (ToolCall.execute Samples.unreachable_client Samples.ping_task)
  = Return [(py "status", PStr (py "error"));
            (py "error", PStr (py "connection refused"))] /\
  dict_get (py "data")
    [(py "status", PStr (py "error"));
     (py "error", PStr (py "connection refused"))] = None.
Proof.
  split; [reflexivity|].
  destruct (execute_result_has_one_of_two_shapes Samples.unreachable_client
              Samples.ping_task
              [(py "status", PStr (py "error"));
               (py "error", PStr (py "connection refused"))] eq_refl)
    as [(_ & H & _) | (_ & _ & H)]; [discriminate H | exact H].
Defined.

(** X16. [execute] first logs the call with the tool and the method of the
    task.  It logs a failure exactly when the [try] raised a fault that
    derives from [Exception]; the fault it logs is that one, and [execute]
    then answers with the error shape carrying [str] of that fault, or
    raises what [str] of that fault raises.  With nothing more logged,
    [execute] returns a success, or raises the fault of the [try], which
    then does not derive from [Exception]. *)
Theorem execute_logs_what_it_reports :
  forall (client : ToolCall.MCPClient) (task : Task.t),
    exists rest,
      fst (ToolCall.execute client task)
      = ToolCall.LogInfo (py "Tool-call %s.%s")
          [of_text (Task.tool task); of_text (Task.method task)] :: rest /\
      ((rest = [] /\
        ((exists data,
             snd (ToolCall.execute client task)
             = Return [(py "status", PStr (py "success"));
                       (py "data", PStr data)]) \/
         (exists fault,
             ToolCall.raised_in_try Json.dumps client task fault /\
             derives_Exception fault = false /\
             snd (ToolCall.execute client task) = Raise fault))) \/
       (exists fault,
           rest = [ToolCall.LogException (py "Tool-call failed") fault] /\
           ToolCall.raised_in_try Json.dumps client task fault /\
           derives_Exception fault = true /\
           snd (ToolCall.execute client task)
           = match str_of fault with
             | Return text =>
                 Return [(py "status", PStr (py "error"));
                         (py "error", PStr text)]
             | Raise e => Raise e
             end)).
Proof.
  intros client task. unfold ToolCall.execute.
  destruct (execute_with_cases Json.dumps client task)
    as [(r & text & _ & _ & E) | [(e & Hin & He & E) | (e & Hin & He & E)]];
    rewrite E; cbn [fst snd app]; eexists; (split; [reflexivity|]).
  - left. split; [reflexivity|]. left. exists text. reflexivity.
  - right. exists e. split; [reflexivity|]. split; [exact Hin|].
    split; [exact He | reflexivity].
  - left. split; [reflexivity|]. right. exists e.
    split; [exact Hin|]. split; [exact He | reflexivity].
Qed.

Lemma execute_logs_what_it_reports_witness :
  fst (ToolCall.execute Samples.unreachable_client Samples.ping_task)
  = [ ToolCall.LogInfo (py "Tool-call %s.%s")
        [PStr (py "meta-ads-mcp"); PStr (py "ping")];
      ToolCall.LogException (py "Tool-call failed")
        (Fault true (py "connection refused")) ] /\
  fst (ToolCall.execute Samples.unprintable_client Samples.ping_task)
  = [ ToolCall.LogInfo (py "Tool-call %s.%s")
        [PStr (py "meta-ads-mcp"); PStr (py "ping")];
      ToolCall.LogException (py "Tool-call failed")
        (Unprintable true (Fault true (py "no message"))) ] /\
  snd (ToolCall.execute Samples.unprintable_client Samples.ping_task)
  = Raise (Fault true (py "no message")).
Proof.
  split; [reflexivity|]. split; [reflexivity|].
  destruct (execute_logs_what_it_reports Samples.unprintable_client
              Samples.ping_task)
    as (rest & Hlog & [(-> & _) | (fault & -> & _ & _ & H)]).
  - discriminate Hlog.
  - injection Hlog as <-. exact H.
Defined.

(** ** A required field that is passed empty *)

Lemma type_keyword_accepted kwargs ty :
  type_keyword_is kwargs ty -> Task.validate_type kwargs = Accepted ty.
Proof.
  unfold Task.validate_type, field.
  intros [H | [H | [-> H]]]; rewrite H; [reflexivity| |reflexivity].
  cbn [not_none TaskType_validator]. now rewrite TaskType_of_value_value.
Qed.

(** What the validator of a required field answers to an empty value. *)
Lemma empty_is_rejected kwargs name (pre : pyval -> pyval) ty f :
  passed_empty kwargs name ->
  pre PNone = PNone -> pre (PStr []) = PStr [] ->
  field name (Some None)
    (fun v => bind (Task.opt_text (pre v))
                (fun v => if is_type (Some ty) ty && falsy v
                          then Rejected f else Accepted v)) kwargs
  = Rejected f.
Proof.
  unfold field. intros [H | H] Hnone Hempty; rewrite H.
  - rewrite Hnone. cbn [Task.opt_text optional bind str_validator falsy].
    now rewrite is_type_same.
  - rewrite Hempty. cbn [Task.opt_text optional bind str_validator falsy].
    now rewrite is_type_same.
Qed.

Ltac next_field r := destruct r; [ | refused .. ].

Section PassedEmpty.

Variable kwargs : pydict.
Variable w : World.

Lemma empty_command_refused :
  type_keyword_is kwargs SHELL_COMMAND -> passed_empty kwargs "command" ->
  refuses_with kwargs w "command"
    (ValueError (py "Command is required for shell_command tasks")).
Proof.
  intros Hty Hempty. apply type_keyword_accepted in Hty.
  assert (E : Task.validate_command kwargs
              = Rejected (ValueError
                            (py "Command is required for shell_command tasks"))).
  { unfold Task.validate_command, Task.values_type. rewrite Hty.
    now apply (empty_is_rejected kwargs "command" Task._ascii_only). }
  unfold refuses_with, Task.init.
  destruct (Task.validate_id kwargs w) as [r_id w1].
  destruct (Task.validate_created_at kwargs w1) as [r_created w2].
  destruct (Task.validate_updated_at kwargs w2) as [r_updated w3].
  cbn [fst]. rewrite Hty, E. unfold Task.assemble.
  next_field r_id. next_field (Task.validate_name kwargs).
  next_field (Task.validate_schedule kwargs). refused.
Qed.

Lemma empty_api_url_refused :
  type_keyword_is kwargs API_CALL -> passed_empty kwargs "api_url" ->
  refuses_with kwargs w "api_url" (ValueError (py "API URL is required for api_call tasks")).
Proof.
  intros Hty Hempty. apply type_keyword_accepted in Hty.
  assert (E : Task.validate_api_url kwargs
              = Rejected (ValueError (py "API URL is required for api_call tasks"))).
  { unfold Task.validate_api_url, Task.values_type. rewrite Hty.
    now apply (empty_is_rejected kwargs "api_url" (fun v => v)). }
  unfold refuses_with, Task.init.
  destruct (Task.validate_id kwargs w) as [r_id w1].
  destruct (Task.validate_created_at kwargs w1) as [r_created w2].
  destruct (Task.validate_updated_at kwargs w2) as [r_updated w3].
  cbn [fst]. rewrite Hty, E. unfold Task.assemble.
  next_field r_id. next_field (Task.validate_name kwargs).
  next_field (Task.validate_schedule kwargs).
  next_field (Task.validate_command kwargs). refused.
Qed.

Lemma empty_prompt_refused :
  type_keyword_is kwargs AI -> passed_empty kwargs "prompt" ->
  refuses_with kwargs w "prompt" (ValueError (py "Prompt is required for AI tasks")).
Proof.
  intros Hty Hempty. apply type_keyword_accepted in Hty.
  assert (E : Task.validate_prompt kwargs
              = Rejected (ValueError (py "Prompt is required for AI tasks"))).
  { unfold Task.validate_prompt, Task.values_type. rewrite Hty.
    now apply (empty_is_rejected kwargs "prompt" Task._ascii_only). }
  unfold refuses_with, Task.init.
  destruct (Task.validate_id kwargs w) as [r_id w1].
  destruct (Task.validate_created_at kwargs w1) as [r_created w2].
  destruct (Task.validate_updated_at kwargs w2) as [r_updated w3].
  cbn [fst]. rewrite Hty, E. unfold Task.assemble.
  next_field r_id. next_field (Task.validate_name kwargs).
  next_field (Task.validate_schedule kwargs).
  next_field (Task.validate_command kwargs).
  next_field (Task.validate_api_url kwargs).
  next_field (Task.validate_api_method kwargs).
  next_field (Task.validate_api_headers kwargs).
  next_field (Task.validate_api_body kwargs). refused.
Qed.

Lemma empty_tool_refused :
  type_keyword_is kwargs TOOL_CALL -> passed_empty kwargs "tool" ->
  refuses_with kwargs w "tool" (ValueError (py "Tool is required for tool_call tasks")).
Proof.
  intros Hty Hempty. apply type_keyword_accepted in Hty.
  assert (E : Task.validate_tool kwargs
              = Rejected (ValueError (py "Tool is required for tool_call tasks"))).
  { unfold Task.validate_tool, Task.values_type. rewrite Hty.
    now apply (empty_is_rejected kwargs "tool" (fun v => v)). }
  unfold refuses_with, Task.init.
  destruct (Task.validate_id kwargs w) as [r_id w1].
  destruct (Task.validate_created_at kwargs w1) as [r_created w2].
  destruct (Task.validate_updated_at kwargs w2) as [r_updated w3].
  cbn [fst]. rewrite Hty, E. unfold Task.assemble.
  next_field r_id. next_field (Task.validate_name kwargs).
  next_field (Task.validate_schedule kwargs).
  next_field (Task.validate_command kwargs).
  next_field (Task.validate_api_url kwargs).
  next_field (Task.validate_api_method kwargs).
  next_field (Task.validate_api_headers kwargs).
  next_field (Task.validate_api_body kwargs).
  next_field (Task.validate_prompt kwargs). refused.
Qed.

Lemma empty_method_refused :
  type_keyword_is kwargs TOOL_CALL -> passed_empty kwargs "method" ->
  refuses_with kwargs w "method" (ValueError (py "Method is required for tool_call tasks")).
Proof.
  intros Hty Hempty. apply type_keyword_accepted in Hty.
  assert (E : Task.validate_method kwargs
              = Rejected (ValueError (py "Method is required for tool_call tasks"))).
  { unfold Task.validate_method, Task.values_type. rewrite Hty.
    now apply (empty_is_rejected kwargs "method" (fun v => v)). }
  unfold refuses_with, Task.init.
  destruct (Task.validate_id kwargs w) as [r_id w1].
  destruct (Task.validate_created_at kwargs w1) as [r_created w2].
  destruct (Task.validate_updated_at kwargs w2) as [r_updated w3].
  cbn [fst]. rewrite Hty, E. unfold Task.assemble.
  next_field r_id. next_field (Task.validate_name kwargs).
  next_field (Task.validate_schedule kwargs).
  next_field (Task.validate_command kwargs).
  next_field (Task.validate_api_url kwargs).
  next_field (Task.validate_api_method kwargs).
  next_field (Task.validate_api_headers kwargs).
  next_field (Task.validate_api_body kwargs).
  next_field (Task.validate_prompt kwargs).
  next_field (Task.validate_tool kwargs). refused.
Qed.

Lemma empty_reminder_message_refused :
  type_keyword_is kwargs REMINDER -> passed_empty kwargs "reminder_message" ->
  refuses_with kwargs w "reminder_message"
    (ValueError (py "Message is required for reminder tasks")).
Proof.
  intros Hty Hempty. apply type_keyword_accepted in Hty.
  assert (E : Task.validate_reminder_message kwargs
              = Rejected (ValueError (py "Message is required for reminder tasks"))).
  { unfold Task.validate_reminder_message, Task.values_type. rewrite Hty.
    now apply (empty_is_rejected kwargs "reminder_message" Task._ascii_only). }
  unfold refuses_with, Task.init.
  destruct (Task.validate_id kwargs w) as [r_id w1].
  destruct (Task.validate_created_at kwargs w1) as [r_created w2].
  destruct (Task.validate_updated_at kwargs w2) as [r_updated w3].
  cbn [fst]. rewrite Hty, E. unfold Task.assemble.
  next_field r_id. next_field (Task.validate_name kwargs).
  next_field (Task.validate_schedule kwargs).
  next_field (Task.validate_command kwargs).
  next_field (Task.validate_api_url kwargs).
  next_field (Task.validate_api_method kwargs).
  next_field (Task.validate_api_headers kwargs).
  next_field (Task.validate_api_body kwargs).
  next_field (Task.validate_prompt kwargs).
  next_field (Task.validate_tool kwargs).
  next_field (Task.validate_method kwargs).
  next_field (Task.validate_params kwargs).
  next_field (Task.validate_reminder_title kwargs). refused.
Qed.

End PassedEmpty.

(** X17. Passing the field that the type requires as [None] or as the
    empty text gives no Task: the construction is refused, and the
    ValidationError carries the validator's message under the name of the
    field, whatever else is wrong with the keyword arguments. *)
Theorem required_field_passed_empty_is_refused :
  forall (kwargs : pydict) (w : World),
    (type_keyword_is kwargs SHELL_COMMAND -> passed_empty kwargs "command" ->
     refuses_with kwargs w "command"
       (ValueError (py "Command is required for shell_command tasks"))) /\
    (type_keyword_is kwargs API_CALL -> passed_empty kwargs "api_url" ->
     refuses_with kwargs w "api_url"
       (ValueError (py "API URL is required for api_call tasks"))) /\
    (type_keyword_is kwargs AI -> passed_empty kwargs "prompt" ->
     refuses_with kwargs w "prompt"
       (ValueError (py "Prompt is required for AI tasks"))) /\
    (type_keyword_is kwargs REMINDER -> passed_empty kwargs "reminder_message" ->
     refuses_with kwargs w "reminder_message"
       (ValueError (py "Message is required for reminder tasks"))) /\
    (type_keyword_is kwargs TOOL_CALL -> passed_empty kwargs "tool" ->
     refuses_with kwargs w "tool"
       (ValueError (py "Tool is required for tool_call tasks"))) /\
    (type_keyword_is kwargs TOOL_CALL -> passed_empty kwargs "method" ->
     refuses_with kwargs w "method"
       (ValueError (py "Method is required for tool_call tasks"))).
Proof.
  intros kwargs w. repeat apply conj.
  - apply empty_command_refused.
  - apply empty_api_url_refused.
  - apply empty_prompt_refused.
  - apply empty_reminder_message_refused.
  - apply empty_tool_refused.
  - apply empty_method_refused.
Qed.

Lemma required_field_passed_empty_is_refused_witness :
  type_keyword_is Samples.empty_tool_kwargs TOOL_CALL /\
  passed_empty Samples.empty_tool_kwargs "tool" /\
  passed_empty Samples.empty_tool_kwargs "method" /\
  fst (Task.init Samples.empty_tool_kwargs Samples.world0)
  = ValidationError
      [(py "tool", ValueError (py "Tool is required for tool_call tasks"));
       (py "method", ValueError (py "Method is required for tool_call tasks"))] /\
  refuses_with Samples.empty_tool_kwargs Samples.world0 "tool"
    (ValueError (py "Tool is required for tool_call tasks")) /\
  refuses_with Samples.empty_tool_kwargs Samples.world0 "method"
    (ValueError (py "Method is required for tool_call tasks")).
Proof.
  assert (Hty : type_keyword_is Samples.empty_tool_kwargs TOOL_CALL)
    by (right; left; reflexivity).
  assert (Htool : passed_empty Samples.empty_tool_kwargs "tool")
    by (right; reflexivity).
  assert (Hmethod : passed_empty Samples.empty_tool_kwargs "method")
    by (left; reflexivity).
  destruct (required_field_passed_empty_is_refused Samples.empty_tool_kwargs
              Samples.world0) as (_ & _ & _ & _ & H5 & H6).
  split; [exact Hty|]. split; [exact Htool|]. split; [exact Hmethod|].
  split; [reflexivity|].
  split; [exact (H5 Hty Htool) | exact (H6 Hty Hmethod)].
Defined.
